(** * Detty-December tourism advisor: profile store, capability modules
      and conversation driver

    A shallow embedding of [src/detty_tourism_main.py] and the properties
    of its session memory, its lookup tools and its turn loop.

    Conventions of the embedding.
    - Python [str] values are byte strings ([string]); the literals of the
      source are kept as they are written, UTF-8 bytes included.
    - Python dictionaries that end up in JSON text (preferences, memory
      entries, tool envelopes) are association lists in insertion order;
      the global [sessions] dictionary and the object heap are [gmap]s.
    - [TouristProfile] objects live in a heap and are referred to by
      location, so that the driver's local variable [session] and the
      entry of [sessions] alias the same object, as they do in Python.
    - Exceptions are values of [exn]; code that may raise returns a
      [result], stateful code runs in the monad [M].
    - Calls of [logger] have no effect on the state that is modelled and
      are left out.  [print] appends to the driver's output and does not
      fail.
    - [strip] removes the blanks of [str.isspace], those outside ASCII
      by their UTF-8 bytes.  [lower] maps the ASCII capitals; no
      character outside ASCII has a lower case that is a letter of
      [quit] or [clear], the two words [lower] is compared with. *)

From Stdlib Require Import ZArith String Ascii List Bool Lia DecimalString.
From stdpp Require Import base option gmap strings.
Import ListNotations.

Local Open Scope string_scope.
Local Open Scope Z_scope.

(** ** Python values and exceptions *)
Module Py.

(** The values the program stores in dictionaries.  A float is kept as
    the decimal literal of the source, [VFloat m e] standing for
    [m * 10^e]; the program never computes with one. *)
#[warnings="-register-all"]
Inductive value : Type :=
| VStr (s : string)
| VInt (z : Z)
| VFloat (m : Z) (e : Z)
| VList (l : list value)
| VDict (d : list (string * value)).

Inductive exn : Type :=
| KeyError (key : string)
| IndexError
| ValueError (msg : string)
| TypeError (msg : string)
| AttributeError (msg : string)
| GenerationError (msg : string)  (* raised by the text-generation service *)
| UnboundObject (l : nat).        (* a location outside the heap *)

Inductive result (A : Type) : Type :=
| Ok (a : A)
| Raise (e : exn).
Arguments Ok {A} a.
Arguments Raise {A} e.

(** [str(e)], as the error message of the driver prints it. *)
Definition str_exn (e : exn) : string :=
  match e with
  | KeyError k => "'" +:+ k +:+ "'"
  | IndexError => "list index out of range"
  | ValueError m => m
  | TypeError m => m
  | AttributeError m => m
  | GenerationError m => m
  | UnboundObject _ => "unbound object"
  end.

(** *** Dictionaries in insertion order *)
Section Dict.
Context {V : Type}.

(** [d.get(k)] *)
Fixpoint dict_get (k : string) (d : list (string * V)) : option V :=
  match d with
  | [] => None
  | (k', v) :: d' => if String.eqb k k' then Some v else dict_get k d'
  end.

(** [k in d] *)
Definition dict_mem (k : string) (d : list (string * V)) : bool :=
  match dict_get k d with Some _ => true | None => false end.

(** [d[k]] *)
Definition subscript (d : list (string * V)) (k : string) : result V :=
  match dict_get k d with
  | Some v => Ok v
  | None => Raise (KeyError k)
  end.

(** [d[k] = v]: an existing key keeps its place, a new one goes last. *)
Fixpoint dict_set (k : string) (v : V) (d : list (string * V))
  : list (string * V) :=
  match d with
  | [] => [(k, v)]
  | (k', v') :: d' =>
      if String.eqb k k' then (k', v) :: d' else (k', v') :: dict_set k v d'
  end.

(** The value under [k] replaced by [f] of it; other keys untouched. *)
Fixpoint dict_alter (f : V -> V) (k : string) (d : list (string * V))
  : list (string * V) :=
  match d with
  | [] => []
  | (k', v') :: d' =>
      if String.eqb k k' then (k', f v') :: d' else (k', v') :: dict_alter f k d'
  end.

(** [d.update(other)] *)
Definition dict_update (d other : list (string * V)) : list (string * V) :=
  fold_left (fun acc kv => dict_set (fst kv) (snd kv) acc) other d.

Definition dict_keys (d : list (string * V)) : list string := map fst d.
End Dict.

(** [t.get(k)] for a dictionary whose keys are tuples. *)
Fixpoint table_get {K V : Type} `{EqDecision K} (k : K) (t : list (K * V))
  : option V :=
  match t with
  | [] => None
  | (k', v) :: t' => if decide (k = k') then Some v else table_get k t'
  end.

Definition type_name (v : value) : string :=
  match v with
  | VStr _ => "str"
  | VInt _ => "int"
  | VFloat _ _ => "float"
  | VList _ => "list"
  | VDict _ => "dict"
  end.

(** [v >= n] for an integer literal [n]. *)
Definition ge_int (v : value) (n : Z) : result bool :=
  match v with
  | VInt z => Ok (n <=? z)
  | VFloat m e =>
      Ok (if 0 <=? e then n <=? m * 10 ^ e else n * 10 ^ (- e) <=? m)
  | _ =>
      Raise (TypeError ("'>=' not supported between instances of '"
                        +:+ type_name v +:+ "' and 'int'"))
  end.

(** *** Sequences *)

(** [l[start:]] with Python's treatment of a negative start: it counts
    from the end and is clamped at the first element. *)
Definition slice_from {A : Type} (start : Z) (l : list A) : list A :=
  let len := Z.of_nat (length l) in
  let s := if start <? 0 then Z.max 0 (start + len) else Z.min start len in
  skipn (Z.to_nat s) l.

(** [l[0]] *)
Definition first_item {A : Type} (l : list A) : result A :=
  match l with
  | x :: _ => Ok x
  | [] => Raise IndexError
  end.

(** *** Strings *)

(** The ASCII characters for which [str.isspace] holds. *)
Definition is_space (c : ascii) : bool :=
  let n := N_of_ascii c in
  ((9 <=? n) && (n <=? 13) || (28 <=? n) && (n <=? 32))%N.

(** The blanks outside ASCII for which [str.isspace] holds, by their
    UTF-8 bytes: U+0085 and U+00A0 take two bytes; U+1680, U+2000 to
    U+200A, U+2028, U+2029, U+202F, U+205F and U+3000 take three. *)
Definition byte_is (c : ascii) (n : N) : bool := N.eqb (N_of_ascii c) n.

Definition blank2 (c1 c2 : ascii) : bool :=
  byte_is c1 0xC2 && (byte_is c2 0x85 || byte_is c2 0xA0).

Definition blank3 (c1 c2 c3 : ascii) : bool :=
  let n3 := N_of_ascii c3 in
  byte_is c1 0xE1 && byte_is c2 0x9A && byte_is c3 0x80
  || byte_is c1 0xE2 && byte_is c2 0x80
     && ((0x80 <=? n3)%N && (n3 <=? 0x8A)%N
         || byte_is c3 0xA8 || byte_is c3 0xA9 || byte_is c3 0xAF)
  || byte_is c1 0xE2 && byte_is c2 0x81 && byte_is c3 0x9F
  || byte_is c1 0xE3 && byte_is c2 0x80 && byte_is c3 0x80.

(** [s.lstrip()]: the blank characters at the start are dropped, of one,
    two or three bytes each. *)
Fixpoint lstrip (s : string) : string :=
  match s with
  | EmptyString => EmptyString
  | String c r =>
      if is_space c then lstrip r
      else
        match r with
        | String c2 r2 =>
            if blank2 c c2 then lstrip r2
            else
              match r2 with
              | String c3 r3 => if blank3 c c2 c3 then lstrip r3 else s
              | EmptyString => s
              end
        | EmptyString => s
        end
  end.

(** [s.rstrip()]: the text is kept up to its last character that is
    not a blank; what remains from some point on is dropped as soon as
    it consists of blanks only. *)
Fixpoint rstrip (s : string) : string :=
  match s with
  | EmptyString => EmptyString
  | String c r =>
      match lstrip s with
      | EmptyString => EmptyString
      | _ => String c (rstrip r)
      end
  end.

(** [s.strip()] *)
Definition strip (s : string) : string := rstrip (lstrip s).

Definition lower_ascii (c : ascii) : ascii :=
  let n := N_of_ascii c in
  if ((65 <=? n) && (n <=? 90))%N then ascii_of_N (n + 32) else c.

(** [s.lower()] *)
Fixpoint lower (s : string) : string :=
  match s with
  | EmptyString => EmptyString
  | String c s' => String (lower_ascii c) (lower s')
  end.

Fixpoint drop_chars (n : nat) (s : string) : string :=
  match n, s with
  | O, _ => s
  | S n', String _ s' => drop_chars n' s'
  | S _, EmptyString => EmptyString
  end.

(** [s.replace(old, new)] for a non-empty [old]: occurrences are found
    left to right and do not overlap.  [fuel] bounds the scan and is the
    length of [s] at the call. *)
Fixpoint replace_fuel (fuel : nat) (old new s : string) : string :=
  match fuel with
  | O => s
  | S fuel' =>
      match s with
      | EmptyString => EmptyString
      | String c s' =>
          if String.prefix old s
          then new +:+ replace_fuel fuel' old new (drop_chars (String.length old) s)
          else String c (replace_fuel fuel' old new s')
      end
  end.

Definition replace (old new s : string) : string :=
  replace_fuel (String.length s) old new s.

(** [int(s)] for an optional sign followed by decimal digits, with
    surrounding blanks ignored; anything else is a [ValueError]. *)
Definition int_of_str (s : string) : result Z :=
  let t := strip s in
  let parsed :=
    match t with
    | String "+" r => option_map Z.of_uint (NilZero.uint_of_string r)
    | String "-" r => option_map (fun u => - Z.of_uint u) (NilZero.uint_of_string r)
    | _ => option_map Z.of_uint (NilZero.uint_of_string t)
    end in
  match parsed with
  | Some z => Ok z
  | None =>
      Raise (ValueError ("invalid literal for int() with base 10: '" +:+ s +:+ "'"))
  end.

(** [str(z)] *)
Definition str_of_int (z : Z) : string := NilZero.string_of_int (Z.to_int z).

(** Commas between groups of three digits, counted from the right;
    [n] is the number of digits of [s]. *)
Fixpoint group_digits (s : string) : string :=
  match s with
  | EmptyString => EmptyString
  | String c s' =>
      let n := String.length s' in
      if andb (Nat.eqb (n mod 3) 0) (negb (Nat.eqb n 0))
      then String c (String "," (group_digits s'))
      else String c (group_digits s')
  end.

(** [f"{z:,}"] *)
Definition format_thousands (z : Z) : string :=
  if z <? 0 then "-" +:+ group_digits (str_of_int (- z))
  else group_digits (str_of_int z).

End Py.
Import Py.

Example strip_ex : strip "  Clear	 " = "Clear". Proof. reflexivity. Qed.
Example lower_ex : lower "QuIt" = "quit". Proof. reflexivity. Qed.
Example strip_nbsp : strip " quit " = "quit". Proof. reflexivity. Qed.
Example strip_wide : strip "　  " = "". Proof. reflexivity. Qed.
Example strip_inner : strip " café à Lagos " = "café à Lagos".
Proof. reflexivity. Qed.
Example replace_ex : replace "," "" (replace "₦" "" "₦45,000") = "45000".
Proof. reflexivity. Qed.
Example int_ex : int_of_str "45000" = Ok 45000. Proof. reflexivity. Qed.
Example fmt_ex : format_thousands 1350000 = "1,350,000". Proof. reflexivity. Qed.
Example fmt_ex2 : format_thousands (-45000) = "-45,000". Proof. reflexivity. Qed.
Example fmt_ex3 : format_thousands 0 = "0". Proof. reflexivity. Qed.
Example slice_ex : slice_from (-5) [1;2;3;4;5;6;7] = [3;4;5;6;7].
Proof. reflexivity. Qed.
Example slice_ex2 : slice_from (-5) [1;2;3] = [1;2;3].
Proof. reflexivity. Qed.

(** ** The error monad and the state monad of the program *)

#[global] Instance result_ret : MRet result := fun _ a => Ok a.
#[global] Instance result_bind : MBind result := fun _ _ f c =>
  match c with
  | Ok a => f a
  | Raise e => Raise e
  end.

(** One [TouristProfile] object.  [created_at] is the reading of the
    clock at construction, see [datetime_now]. *)
Record TouristProfile : Type := mkProfile {
  user_id : string;
  created_at : nat;
  preferences : list (string * value);
  memory_bank : list (string * list value);
  session_state : string
}.

(** The process state: the objects allocated so far, the module-level
    dictionary [sessions] and the number of clock readings made. *)
Record World : Type := mkWorld {
  heap : gmap nat TouristProfile;
  next_loc : nat;
  sessions : gmap string nat;
  ticks : nat
}.

(** A computation changes the world and returns or raises; what it did
    before raising stays done. *)
Definition M (A : Type) : Type := World -> result A * World.

#[global] Instance M_ret : MRet M := fun _ a w => (Ok a, w).
#[global] Instance M_bind : MBind M := fun _ _ f c w =>
  match c w with
  | (Ok a, w') => f a w'
  | (Raise e, w') => (Raise e, w')
  end.

Definition lift {A : Type} (r : result A) : M A := fun w => (r, w).

(** The state at import time: [sessions = {}] and no object. *)
Definition initial_world : World :=
  {| heap := ∅; next_loc := 0; sessions := ∅; ticks := 0 |}.

Definition default_preferences : list (string * value) :=
  [ ("budget", VStr "moderate");
    ("interests", VList []);
    ("duration", VInt 0);
    ("dietary_restrictions", VList []);
    ("mobility_concerns", VList []) ].

Definition empty_memory_bank : list (string * list value) :=
  [ ("visited_places", []);
    ("saved_restaurants", []);
    ("bookings", []);
    ("safety_alerts", []);
    ("chat_history", []) ].

(** The five category names, in the order of the constructor. *)
Definition memory_categories : list string :=
  [ "visited_places"; "saved_restaurants"; "bookings"; "safety_alerts";
    "chat_history" ].

Definition set_preferences (f : list (string * value)) (p : TouristProfile)
  : TouristProfile :=
  {| user_id := user_id p; created_at := created_at p; preferences := f;
     memory_bank := memory_bank p; session_state := session_state p |}.

Definition set_memory_bank (m : list (string * list value)) (p : TouristProfile)
  : TouristProfile :=
  {| user_id := user_id p; created_at := created_at p;
     preferences := preferences p; memory_bank := m;
     session_state := session_state p |}.

(** [self.memory_bank[category]] grown at its end by [items]. *)
Definition extend_category (category : string) (items : list value)
    (p : TouristProfile) : TouristProfile :=
  set_memory_bank
    (dict_alter (fun entries => entries ++ items)%list category (memory_bank p)) p.

(** The dictionary [to_dict] returns, for the object [p]. *)
Definition profile_dict (p : TouristProfile) : list (string * value) :=
  [ ("user_id", VStr (user_id p));
    ("preferences", VDict (preferences p));
    ("recent_memory",
      VDict (map (fun kv => (fst kv, VList (slice_from (-5) (snd kv))))
                 (memory_bank p))) ].

(** ** An environment for the examples

    The program is parametric in the clock and in the text renderers of
    the standard library.  The examples at the end of the file run it
    with this clock, which advances by one second per reading, and with
    one flat renderer for both [json.dumps] and [repr]. *)

Definition example_isoformat (n : nat) : string :=
  "2025-12-01T10:00:" +:+ NilZero.string_of_uint (Nat.to_uint n).

Definition example_timestamp (n : nat) : string :=
  "1764583200." +:+ NilZero.string_of_uint (Nat.to_uint n).

Fixpoint example_render (v : value) : string :=
  match v with
  | VStr s => "'" +:+ s +:+ "'"
  | VInt z => str_of_int z
  | VFloat m e => str_of_int m +:+ "e" +:+ str_of_int e
  | VList l =>
      "[" +:+ (fix items (l : list value) : string :=
                 match l with
                 | [] => ""
                 | x :: r => example_render x +:+ "," +:+ items r
                 end) l +:+ "]"
  | VDict d =>
      "{" +:+ (fix fields (d : list (string * value)) : string :=
                 match d with
                 | [] => ""
                 | (k, x) :: r =>
                     "'" +:+ k +:+ "':" +:+ example_render x +:+ "," +:+ fields r
                 end) d +:+ "}"
  end.

(** A profile whose list of visited places has seven entries. *)
Definition example_profile : TouristProfile :=
  {| user_id := "T1"; created_at := 0;
     preferences := default_preferences;
     memory_bank :=
       [ ("visited_places",
           [ VStr "a"; VStr "b"; VStr "c"; VStr "d"; VStr "e"; VStr "f";
             VStr "g" ]);
         ("saved_restaurants", []);
         ("bookings", []);
         ("safety_alerts", []);
         ("chat_history", []) ];
     session_state := "active" |}.

Definition example_world : World :=
  {| heap := {[ 0%nat := example_profile ]}; next_loc := 1;
     sessions := {[ "T1" := 0%nat ]}; ticks := 1 |}.

Section Program.

(** The environment: [json.dumps(v, indent=2)] of the standard library,
    and what the [n]-th reading of the clock gives as
    [datetime.now().isoformat()] and as [datetime.now().timestamp()]. *)
Context (json_dumps : value -> string).
Context (now_isoformat : nat -> string).
Context (now_timestamp : nat -> string).

(** [repr(v)] of the standard library. *)
Context (repr : value -> string).

(** *** Memory management *)

(** [datetime.now()]: the readings are numbered. *)
Definition datetime_now : M nat := fun w =>
  (Ok (ticks w),
   {| heap := heap w; next_loc := next_loc w; sessions := sessions w;
      ticks := S (ticks w) |}).

Definition deref (l : nat) : M TouristProfile := fun w =>
  match heap w !! l with
  | Some p => (Ok p, w)
  | None => (Raise (UnboundObject l), w)
  end.

Definition assign (l : nat) (p : TouristProfile) : M unit := fun w =>
  (Ok tt,
   {| heap := <[l := p]> (heap w); next_loc := next_loc w;
      sessions := sessions w; ticks := ticks w |}).

Definition alloc (p : TouristProfile) : M nat := fun w =>
  (Ok (next_loc w),
   {| heap := <[next_loc w := p]> (heap w); next_loc := S (next_loc w);
      sessions := sessions w; ticks := ticks w |}).

(** [TouristProfile.__init__] *)
Definition TouristProfile_init (uid : string) : M nat :=
  now ← datetime_now;
  alloc {| user_id := uid; created_at := now;
           preferences := default_preferences;
           memory_bank := empty_memory_bank;
           session_state := "active" |}.

(** [TouristProfile.update_preferences] *)
Definition update_preferences (self : nat) (prefs : list (string * value))
  : M unit :=
  p ← deref self;
  assign self (set_preferences (dict_update (preferences p) prefs) p).

(** [TouristProfile.save_to_memory]: the clock is read only when the
    category is a key of the memory bank. *)
Definition save_to_memory (self : nat) (category : string) (item : value)
  : M unit :=
  p ← deref self;
  if dict_mem category (memory_bank p) then
    now ← datetime_now;
    assign self
      (extend_category category
         [VDict [("data", item); ("timestamp", VStr (now_isoformat now))]] p)
  else mret tt.

(** [TouristProfile.to_dict] *)
Definition to_dict (self : nat) : M (list (string * value)) :=
  p ← deref self;
  mret (profile_dict p).

(** [uid in sessions] and [sessions[uid]] in one reading. *)
Definition sessions_get (uid : string) : M (option nat) := fun w =>
  (Ok (sessions w !! uid), w).

(** [sessions[uid] = l] *)
Definition sessions_set (uid : string) (l : nat) : M unit := fun w =>
  (Ok tt,
   {| heap := heap w; next_loc := next_loc w;
      sessions := <[uid := l]> (sessions w); ticks := ticks w |}).

(** [del sessions[uid]]; the caller has checked that the key is there. *)
Definition sessions_del (uid : string) : M unit := fun w =>
  match sessions w !! uid with
  | Some _ =>
      (Ok tt,
       {| heap := heap w; next_loc := next_loc w;
          sessions := delete uid (sessions w); ticks := ticks w |})
  | None => (Raise (KeyError uid), w)
  end.

(** [get_or_create_session] *)
Definition get_or_create_session (uid : string) : M nat :=
  found ← sessions_get uid;
  match found with
  | Some l => mret l
  | None =>
      l ← TouristProfile_init uid;
      sessions_set uid l;;
      mret l
  end.

(** *** Tools *)

Definition attractions_db : list (string * string * string * list value) :=
  [ (("Lekki", "beach", "budget"),
     [ VDict [("name", VStr "Lekki Beach"); ("rating", VFloat 45 (-1));
              ("price", VStr "₦0"); ("hours", VStr "6AM-6PM");
              ("tip", VStr "Go early to avoid crowds")];
       VDict [("name", VStr "Elegushi Beach"); ("rating", VFloat 43 (-1));
              ("price", VStr "₦500"); ("hours", VStr "6AM-7PM")] ]);
    (("VI", "shopping", "moderate"),
     [ VDict [("name", VStr "Landmark Towers"); ("rating", VFloat 47 (-1));
              ("price", VStr "Various"); ("hours", VStr "10AM-10PM")];
       VDict [("name", VStr "City Mall"); ("rating", VFloat 45 (-1));
              ("price", VStr "Various"); ("hours", VStr "10AM-9PM")] ]);
    (("Lekki", "restaurant", "moderate"),
     [ VDict [("name", VStr "Craft"); ("rating", VFloat 46 (-1));
              ("cuisine", VStr "Continental");
              ("price_range", VStr "₦8000-₦20000")];
       VDict [("name", VStr "Cote Cuisine"); ("rating", VFloat 45 (-1));
              ("cuisine", VStr "African");
              ("price_range", VStr "₦7000-₦15000")] ]);
    (("VI", "nightlife", "luxury"),
     [ VDict [("name", VStr "Shisha Lounge"); ("rating", VFloat 44 (-1));
              ("entry", VStr "₦10000"); ("hours", VStr "10PM-4AM")];
       VDict [("name", VStr "Club1 Lounge"); ("rating", VFloat 43 (-1));
              ("entry", VStr "₦15000"); ("hours", VStr "9PM-5AM")] ]) ].

(** [search_attractions]; [budget] defaults to ["moderate"]. *)
Definition search_attractions (location category budget : string)
  : M (list (string * value)) :=
  let key := (location, category, budget) in
  let results := default [] (table_get key attractions_db) in
  now ← datetime_now;
  mret [ ("status", VStr "success");
         ("location", VStr location);
         ("category", VStr category);
         ("count", VInt (Z.of_nat (length results)));
         ("attractions", VList results);
         ("timestamp", VStr (now_isoformat now)) ].

Definition safety_db : list (string * list (string * value)) :=
  [ ("Lekki", [("day", VInt 8); ("night", VInt 6); ("alerts", VList []);
               ("tip", VStr "Generally safe, avoid isolated areas at night")]);
    ("VI", [("day", VInt 9); ("night", VInt 8); ("alerts", VList []);
            ("tip", VStr "Safest area, good security presence")]);
    ("Surulere", [("day", VInt 6); ("night", VInt 4);
                  ("alerts", VList [VStr "Avoid late night walks"]);
                  ("tip", VStr "Use registered taxis")]);
    ("Ikoyi", [("day", VInt 8); ("night", VInt 7); ("alerts", VList []);
               ("tip", VStr "Safe with standard precautions")]) ].

Definition safety_default : list (string * value) :=
  [ ("day", VInt 5); ("night", VInt 3);
    ("alerts", VList [VStr "Check latest info"]);
    ("tip", VStr "Exercise caution") ].

Definition emergency_contacts : value :=
  VDict [ ("police", VStr "999");
          ("ambulance", VStr "112");
          ("tourism_hotline", VStr "+234 700 000 0000") ].

(** [check_safety_status]; [time_of_day] defaults to ["day"]. *)
Definition check_safety_status (location time_of_day : string)
  : result (list (string * value)) :=
  let safety_info := default safety_default (dict_get location safety_db) in
  score ← subscript safety_info time_of_day;
  at_least_7 ← ge_int score 7;
  status ← (if at_least_7 : bool then mret "safe"
            else at_least_5 ← ge_int score 5;
                 mret (if at_least_5 : bool then "caution" else "avoid"));
  alerts ← subscript safety_info "alerts";
  tip ← subscript safety_info "tip";
  mret [ ("location", VStr location);
         ("time_of_day", VStr time_of_day);
         ("safety_score", score);
         ("status", VStr status);
         ("alerts", alerts);
         ("recommendation", tip);
         ("emergency_contacts", emergency_contacts) ].

Definition hotels_db : list (string * string * list value) :=
  [ (("Lekki", "moderate"),
     [ VDict [("name", VStr "Lekki Palm Hotel");
              ("price_per_night", VStr "₦45000"); ("rating", VFloat 46 (-1));
              ("amenities", VList [VStr "WiFi"; VStr "Pool"; VStr "Restaurant"]);
              ("booking_url", VStr "mock://booking1")];
       VDict [("name", VStr "Radisson Blu");
              ("price_per_night", VStr "₦65000"); ("rating", VFloat 48 (-1));
              ("amenities",
                VList [VStr "WiFi"; VStr "Pool"; VStr "Gym"; VStr "Restaurant"])] ]);
    (("VI", "luxury"),
     [ VDict [("name", VStr "Eko Hotels");
              ("price_per_night", VStr "₦120000"); ("rating", VFloat 49 (-1));
              ("amenities",
                VList [VStr "WiFi"; VStr "Pool"; VStr "Gym"; VStr "Spa";
                       VStr "Restaurant"])];
       VDict [("name", VStr "Intercontinental");
              ("price_per_night", VStr "₦150000"); ("rating", VFloat 49 (-1));
              ("amenities",
                VList [VStr "WiFi"; VStr "Pool"; VStr "Gym"; VStr "Spa";
                       VStr "Fine Dining"])] ]) ].

(** [hotel["price_per_night"]] of a table entry, as a string. *)
Definition price_per_night (hotel : value) : result string :=
  match hotel with
  | VDict d =>
      price ← subscript d "price_per_night";
      match price with
      | VStr s => mret s
      | v => Raise (AttributeError ("'" +:+ type_name v
                                    +:+ "' object has no attribute 'replace'"))
      end
  | v => Raise (TypeError ("'" +:+ type_name v +:+ "' object is not subscriptable"))
  end.

(** [search_hotels] *)
Definition search_hotels (location budget : string) (nights : Z)
    (checkin_date : string) : result (list (string * value)) :=
  let key := (location, budget) in
  let hotels := default [] (table_get key hotels_db) in
  total_cost ←
    match hotels with
    | hotel :: _ =>
        price ← price_per_night hotel;
        n ← int_of_str (replace "," "" (replace "₦" "" price));
        mret (n * nights)
    | [] => mret 0
    end;
  mret [ ("status", VStr "success");
         ("location", VStr location);
         ("checkin_date", VStr checkin_date);
         ("nights", VInt nights);
         ("hotel_count", VInt (Z.of_nat (length hotels)));
         ("hotels", VList hotels);
         ("estimated_total_cost", VStr ("₦" +:+ format_thousands total_cost));
         ("booking_note", VStr "Prices subject to availability") ].

Definition tips : list (string * list value) :=
  [ ("transport",
     [ VStr "Use Uber or Bolt instead of street taxis - safer and tracked";
       VStr "Traffic is worst 7-9AM and 4-7PM - plan accordingly";
       VStr "Danfo (minibus) is cheap but crowded - good for adventurous travelers" ]);
    ("food",
     [ VStr "Jollof rice competitions happen in December - try different spots";
       VStr "Suya (grilled meat) is best at night on street corners";
       VStr "Visit local markets (Lekki, Balogun) for authentic Lagos food" ]);
    ("culture",
     [ VStr "December festivals: Taste of Lagos, Lagos Street Festival";
       VStr "Visit museums: Nike Centre, Lekki Conservation Centre";
       VStr "Catch live music at Afrobeats venues - Lagos is music capital" ]);
    ("safety",
     [ VStr "Don't walk alone at night - use registered transport";
       VStr "Keep valuables in hotel safe, carry minimal cash";
       VStr "Register with your embassy before arrival";
       VStr "Have travel insurance with medical coverage" ]);
    ("events",
     [ VStr "Detty-December starts Dec 1 - street parties every weekend";
       VStr "Beach cleanups and community events throughout month";
       VStr "Shopping festivals with discounts in Lekki and VI" ]) ].

(** [get_local_tips] *)
Definition get_local_tips (category : string) : list (string * value) :=
  [ ("category", VStr category);
    ("tips", VList (default [] (dict_get category tips)));
    ("last_updated", VStr "2025-11-16");
    ("source", VStr "Local Lagos Tourism Guide") ].

(** [make_booking_reminder] *)
Definition make_booking_reminder (location activity date time tourist_id : string)
  : M (list (string * value)) :=
  session ← get_or_create_session tourist_id;
  save_to_memory session "bookings"
    (VDict [ ("activity", VStr activity);
             ("location", VStr location);
             ("date", VStr date);
             ("time", VStr time);
             ("status", VStr "reminder_set") ]);;
  mret [ ("status", VStr "success");
         ("reminder_id",
           VStr ("REM-" +:+ tourist_id +:+ "-" +:+ date +:+ "-" +:+ activity));
         ("activity", VStr activity);
         ("location", VStr location);
         ("scheduled_date", VStr date);
         ("scheduled_time", VStr time);
         ("message",
           VStr ("Reminder set for " +:+ activity +:+ " at " +:+ location
                 +:+ " on " +:+ date +:+ " at " +:+ time));
         ("notification_method", VStr "SMS + Email (simulated)") ].

(** *** Sub-agents and the orchestrator *)

(** An [LlmAgent] as the program constructs it; [AgentTool(agent=a)]
    wraps the agent [a] as a tool. *)
#[warnings="-register-all"]
Inductive LlmAgent : Type :=
| Agent (model name description instructions : string) (tools : list AgentTool)
with AgentTool : Type :=
| AgentTool_of (agent : LlmAgent).

Definition instructions_of (a : LlmAgent) : string :=
  match a with Agent _ _ _ i _ => i end.

Definition tools_of (a : LlmAgent) : list AgentTool :=
  match a with Agent _ _ _ _ ts => ts end.

Definition tourism_advisor_agent : LlmAgent :=
  Agent "gemini-2.5-flash" "TourismAdvisor"
    "Expert on Lagos tourism attractions, restaurants, shopping, culture, and entertainment"
    "You are a knowledgeable Lagos tourism guide specializing in Detty-December experiences.
    
Your role:
- Recommend attractions based on tourist interests and budget
- Suggest restaurants and food experiences
- Provide cultural insights about Lagos
- Help plan itineraries
- Use search_attractions tool to find specific recommendations
- Use get_local_tips to share insider knowledge

Always ask about preferences first before recommending."
    [].

Definition safety_guide_agent : LlmAgent :=
  Agent "gemini-2.5-flash" "SafetyGuide"
    "Provides safety information, security tips, and emergency guidance for Lagos"
    "You are a safety and security expert for Lagos tourism.

Your role:
- Assess safety of locations and neighborhoods
- Provide security best practices for travelers
- Check current safety status using check_safety_status tool
- Give practical safety advice based on time of day and location
- Provide emergency contacts and resources
- Never minimize real safety concerns - always prioritize tourist safety

Format safety info clearly and actionably."
    [].

Definition booking_assistant_agent : LlmAgent :=
  Agent "gemini-2.5-flash" "BookingAssistant"
    "Handles hotel bookings, reservations, and activity bookings"
    "You are a professional booking coordinator for Lagos experiences.

Your role:
- Search for hotels matching tourist needs
- Help make reservation decisions
- Set booking reminders and confirmations
- Use search_hotels tool to find accommodations
- Use make_booking_reminder to confirm bookings
- Provide clear booking details and cancellation policies
- Track all bookings in tourist profile

Always confirm preferences and dates before searching."
    [].

(** [str(v)] inside an f-string: a string is inserted as it is, any
    other value through [repr]. *)
Definition str_value (v : value) : string :=
  match v with
  | VStr s => s
  | _ => repr v
  end.

(** The f-string of [build_orchestrator_context] around its three
    insertions. *)
Definition context_template (uid prefs recent : string) : string :=
  "
Current Tourist Profile:
- User ID: " +:+ uid +:+ "
- Preferences: " +:+ prefs +:+ "
- Recent Activity: " +:+ recent +:+ "

You have access to specialized sub-agents:
1. TourismAdvisor - recommendations for attractions and experiences
2. SafetyGuide - safety information and security guidance
3. BookingAssistant - hotel and activity bookings

Always consider the tourist's profile when delegating tasks.".

(** The text of the context, from the dictionary [to_dict] returned. *)
Definition context_text (profile : list (string * value)) : result string :=
  uid ← subscript profile "user_id";
  prefs ← subscript profile "preferences";
  recent ← subscript profile "recent_memory";
  mret (context_template (str_value uid) (json_dumps prefs) (json_dumps recent)).

(** [build_orchestrator_context] *)
Definition build_orchestrator_context (tourist_id : string) : M string :=
  session ← get_or_create_session tourist_id;
  profile ← to_dict session;
  lift (context_text profile).

(** The instructions of the orchestrator around the context [ctx]. *)
Definition orchestrator_instructions (ctx : string) : string :=
  "You are the main Detty-December Tourism Advisor for Lagos.

Your mission: Help tourists arriving in Lagos this December have the best experience safely and affordably.

Tourist Context:
" +:+ ctx +:+ "

Available capabilities:
1. Tourism Advisor Agent - for attraction and restaurant recommendations
2. Safety Guide Agent - for security and safety information
3. Booking Assistant Agent - for hotel and reservation management

Your coordination logic:
- Always greet new tourists warmly with Detty-December spirit
- Assess their needs (interests, budget, duration, concerns)
- Delegate specialized tasks to appropriate sub-agents
- Consolidate responses into actionable itineraries
- Prioritize safety alongside enjoyment
- Save all recommendations to their session memory

Response format:
1. Welcome/Assessment (if first interaction)
2. Key Recommendations (from relevant sub-agents)
3. Next Steps / Call-to-Action
4. Emergency Info (if needed)

Remember: You're their local guide, concierge, and safety advocate.".

(** The [LlmAgent] that [create_orchestrator_agent] constructs around
    the context [ctx]. *)
Definition orchestrator_agent (ctx : string) : LlmAgent :=
  let tourism_tool := AgentTool_of tourism_advisor_agent in
  let safety_tool := AgentTool_of safety_guide_agent in
  let booking_tool := AgentTool_of booking_assistant_agent in
  Agent "gemini-2.5-flash" "DettyDecemberAdvisor"
    "Main orchestrator for Detty-December Lagos tourism experiences"
    (orchestrator_instructions ctx)
    [tourism_tool; safety_tool; booking_tool].

(** [create_orchestrator_agent]: the context is built once, here, and
    becomes part of the instructions of the agent. *)
Definition create_orchestrator_agent (tourist_id : string) : M LlmAgent :=
  ctx ← build_orchestrator_context tourist_id;
  mret (orchestrator_agent ctx).

(** *** Conversation loop *)

(** The response of [generate_content], as far as the loop reads it:
    [response.candidates[0].content.parts[0].text]. *)
Record Part : Type := { text : string }.
Record Content : Type := { parts : list Part }.
Record Candidate : Type := { content : Content }.
Record GenerateContentResponse : Type := { candidates : list Candidate }.

(** What one iteration of the loop receives from outside: the line that
    [input] returns and, if the orchestrator is called, what
    [generate_content] does, return a response or raise. *)
Record Turn : Type := {
  line : string;
  generation : result GenerateContentResponse
}.

(** The variables of [run_tourism_advisor], the world and what has been
    written to the console. *)
Record Driver : Type := mkDriver {
  world : World;
  stdout : list string;
  tourist_id : string;
  orchestrator : LlmAgent;
  session : nat;
  conversation_history : list value
}.

Inductive outcome : Type :=
| Continue (d : Driver)            (* back at [input] *)
| Break (d : Driver)               (* the loop was left *)
| Propagate (e : exn) (d : Driver) (* an exception left the function *).

Definition print (s : string) (d : Driver) : Driver :=
  mkDriver (world d) (stdout d ++ [s])%list (tourist_id d) (orchestrator d)
           (session d) (conversation_history d).

Definition set_world (w : World) (d : Driver) : Driver :=
  mkDriver w (stdout d) (tourist_id d) (orchestrator d) (session d)
           (conversation_history d).

Definition append_history (m : value) (d : Driver) : Driver :=
  mkDriver (world d) (stdout d) (tourist_id d) (orchestrator d) (session d)
           (conversation_history d ++ [m])%list.

Fixpoint repeat_str (s : string) (n : nat) : string :=
  match n with
  | O => EmptyString
  | S n' => s +:+ repeat_str s n'
  end.

Definition chat_message (role content : string) : value :=
  VDict [("role", VStr role); ("content", VStr content)].

(** [session.memory_bank["chat_history"].extend(items)] *)
Definition extend_chat_history (self : nat) (items : list value) : M unit :=
  p ← deref self;
  lift (subscript (memory_bank p) "chat_history");;
  assign self (extend_category "chat_history" items p).

Definition extract_text (response : GenerateContentResponse) : result string :=
  candidate ← first_item (candidates response);
  part ← first_item (parts (content candidate));
  mret (text part).

Definition error_msg (e : exn) : string :=
  "⚠️ Error: " +:+ str_exn e +:+ "
Please try again or rephrase your request.".

(** The [except Exception] branch. *)
Definition handle_exception (e : exn) (d : Driver) : Driver :=
  print ("
" +:+ error_msg e +:+ "
") d.

(** The lines of the function up to the loop; [name_line] is what the
    first [input] returns. *)
Definition startup (name_line : string) (w : World) : outcome :=
  let d0 := mkDriver w [] "" (Agent "" "" "" "" []) 0 [] in
  let d0 := print ("
" +:+ repeat_str "=" 70) d0 in
  let d0 := print "🌴  DETTY-DECEMBER LAGOS TOURISM ADVISOR  🌴" d0 in
  let d0 := print (repeat_str "=" 70) d0 in
  let d0 := print "Welcome! This AI agent helps tourists explore Lagos safely this December." d0 in
  let d0 := print "Type 'quit' to exit, 'clear' to start new session.
" d0 in
  let d0 := print "Enter your name or tourist ID: " d0 in
  let init : M (string * LlmAgent * nat) :=
    tid ← (if String.eqb (strip name_line) "" then
             now ← datetime_now;
             mret ("Tourist-" +:+ now_timestamp now)
           else mret (strip name_line));
    orch ← create_orchestrator_agent tid;
    ses ← get_or_create_session tid;
    mret (tid, orch, ses) in
  match init w with
  | (Raise e, w') => Propagate e (set_world w' d0)
  | (Ok (tid, orch, ses), w') =>
      let d := mkDriver w' (stdout d0) tid orch ses [] in
      let d := print ("
✅ Welcome, " +:+ tid
                      +:+ "! I'm your Detty-December guide for Lagos.") d in
      Continue
        (print "Tell me about your trip - interests, budget, concerns, and I'll help plan it!
" d)
  end.

(** The [clear] branch. *)
Definition clear_session (d : Driver) : outcome :=
  let reset : M (LlmAgent * nat) :=
    found ← sessions_get (tourist_id d);
    (if found is Some _ then sessions_del (tourist_id d) else mret tt);;
    orch ← create_orchestrator_agent (tourist_id d);
    ses ← get_or_create_session (tourist_id d);
    mret (orch, ses) in
  match reset (world d) with
  | (Raise e, w') => Propagate e (set_world w' d)
  | (Ok (orch, ses), w') =>
      Continue
        (print "✨ Session cleared. Let's start fresh!
"
           (mkDriver w' (stdout d) (tourist_id d) orch ses
                     (conversation_history d)))
  end.

(** The body of [try]: it raises or runs to its end, and in both cases
    leaves the variables as they are at that point. *)
Definition try_block (user_input : string)
    (generation : result GenerateContentResponse) (d : Driver)
  : result unit * Driver :=
  match response ← generation; extract_text response with
  | Raise e => (Raise e, d)
  | Ok agent_response =>
      let d := append_history (chat_message "agent" agent_response) d in
      match extend_chat_history (session d)
              [ chat_message "user" user_input;
                chat_message "agent" agent_response ] (world d) with
      | (Raise e, w') => (Raise e, set_world w' d)
      | (Ok _, w') =>
          (Ok tt,
           print ("
🤖 Tourism Advisor:
" +:+ agent_response +:+ "
")
                 (set_world w' d))
      end
  end.

(** The rest of the loop body: [try] with its handler. *)
Definition process_turn (d : Driver) (user_input : string)
    (generation : result GenerateContentResponse) : Driver :=
  let d := append_history (chat_message "user" user_input) d in
  match try_block user_input generation d with
  | (Ok _, d') => d'
  | (Raise e, d') => handle_exception e d'
  end.

(** One iteration of [while True]. *)
Definition loop_body (d : Driver) (t : Turn) : outcome :=
  let d := print (tourist_id d +:+ ": ") d in
  let user_input := strip (line t) in
  if String.eqb user_input "" then Continue d
  else if String.eqb (lower user_input) "quit" then
    Break (print "
🙏 Thank you for using Detty-December Advisor! Enjoy Lagos! Stay safe!" d)
  else if String.eqb (lower user_input) "clear" then clear_session d
  else Continue (process_turn d user_input (generation t)).

(** The loop on the turns that arrive; [Continue] when they are used up
    and the loop waits at [input]. *)
Fixpoint run_loop (d : Driver) (turns : list Turn) : outcome :=
  match turns with
  | [] => Continue d
  | t :: rest =>
      match loop_body d t with
      | Continue d' => run_loop d' rest
      | o => o
      end
  end.

(** [run_tourism_advisor] on a fresh process. *)
Definition run_tourism_advisor (name_line : string) (turns : list Turn)
  : outcome :=
  match startup name_line initial_world with
  | Continue d => run_loop d turns
  | o => o
  end.

(** ** Vocabulary of the properties *)

(** The memory bank of [p] has the five categories of the constructor,
    and no other key. *)
Definition memory_wf (p : TouristProfile) : Prop :=
  dict_keys (memory_bank p) = memory_categories.

(** Every session refers to an object, and every object was allocated
    below [next_loc] with a well-formed memory bank. *)
Definition world_wf (w : World) : Prop :=
  (forall uid l, sessions w !! uid = Some l -> is_Some (heap w !! l)) /\
  (forall l p, heap w !! l = Some p -> (l < next_loc w)%nat /\ memory_wf p).

(** The driver's variable [session] is the object under its tourist id. *)
Definition driver_wf (d : Driver) : Prop :=
  world_wf (world d) /\ sessions (world d) !! tourist_id d = Some (session d).

(** The object the constructor builds for [uid] at clock reading [now]. *)
Definition fresh_profile (uid : string) (now : nat) : TouristProfile :=
  {| user_id := uid; created_at := now;
     preferences := default_preferences;
     memory_bank := empty_memory_bank;
     session_state := "active" |}.

(** The record [save_to_memory] appends for [item] at clock reading [now]. *)
Definition memory_entry (item : value) (now : nat) : value :=
  VDict [("data", item); ("timestamp", VStr (now_isoformat now))].

(** The context text for the object [p]. *)
Definition profile_context (p : TouristProfile) : string :=
  context_template (user_id p)
    (json_dumps (VDict (preferences p)))
    (json_dumps
       (VDict (map (fun kv => (fst kv, VList (slice_from (-5) (snd kv))))
                   (memory_bank p)))).

(** The world once [del sessions[uid]] has run, or was skipped because
    the key was not there. *)
Definition without_session (uid : string) (w : World) : World :=
  {| heap := heap w; next_loc := next_loc w;
     sessions := delete uid (sessions w); ticks := ticks w |}.

(** The world once a profile for [uid] has been constructed and entered
    in [sessions]. *)
Definition session_created (uid : string) (w : World) : World :=
  {| heap := <[next_loc w := fresh_profile uid (ticks w)]> (heap w);
     next_loc := S (next_loc w);
     sessions := <[uid := next_loc w]> (sessions w);
     ticks := S (ticks w) |}.

(** The prompt of [input] in the loop. *)
Definition prompt (d : Driver) : string := tourist_id d +:+ ": ".

(** A line that is neither empty nor one of the two commands. *)
Definition utterance (raw : string) : Prop :=
  strip raw <> "" /\ lower (strip raw) <> "quit" /\ lower (strip raw) <> "clear".

(** A response with one candidate that has one part, the text [s]. *)
Definition response_with (s : string) : GenerateContentResponse :=
  {| candidates := [ {| content := {| parts := [ {| text := s |} ] |} |} ] |}.

(** The profile the store holds for [uid], if there is one. *)
Definition profile_of (w : World) (uid : string) : option TouristProfile :=
  match sessions w !! uid with
  | Some l => heap w !! l
  | None => None
  end.

(** The entries of one category of that profile; none while the
    profile or the category does not exist. *)
Definition memory_of (w : World) (uid category : string) : list value :=
  match profile_of w uid with
  | Some p => default [] (dict_get category (memory_bank p))
  | None => []
  end.

(** A record of shape [{data, timestamp}]. *)
Definition is_timestamped_record (v : value) : bool :=
  match v with
  | VDict [(k1, _); (k2, VStr _)] => String.eqb k1 "data" && String.eqb k2 "timestamp"
  | _ => false
  end.

(** One call of a lookup tool. *)
Inductive Lookup : Type :=
| AttractionSearch (location category budget : string)
| SafetyCheck (location time_of_day : string)
| HotelSearch (location budget : string) (nights : Z) (checkin_date : string)
| LocalTips (category : string).

(** The key of the call is not in the table of its tool. *)
Definition key_absent (q : Lookup) : bool :=
  match q with
  | AttractionSearch location category budget =>
      negb (bool_decide (is_Some (table_get (location, category, budget) attractions_db)))
  | SafetyCheck location _ => negb (dict_mem location safety_db)
  | HotelSearch location budget _ _ =>
      negb (bool_decide (is_Some (table_get (location, budget) hotels_db)))
  | LocalTips category => negb (dict_mem category tips)
  end.

(** The call itself; only the attraction search touches the world. *)
Definition call (q : Lookup) : M (list (string * value)) :=
  match q with
  | AttractionSearch location category budget =>
      search_attractions location category budget
  | SafetyCheck location time_of_day =>
      lift (check_safety_status location time_of_day)
  | HotelSearch location budget nights checkin_date =>
      lift (search_hotels location budget nights checkin_date)
  | LocalTips category => mret (get_local_tips category)
  end.

(** The field of the envelope that holds the items found. *)
Definition items_field (q : Lookup) : string :=
  match q with
  | AttractionSearch _ _ _ => "attractions"
  | SafetyCheck _ _ => "alerts"
  | HotelSearch _ _ _ _ => "hotels"
  | LocalTips _ => "tips"
  end.

(** An empty answer: status ["success"] and no item. *)
Definition empty_success (q : Lookup) (envelope : list (string * value)) : Prop :=
  dict_get "status" envelope = Some (VStr "success") /\
  dict_get (items_field q) envelope = Some (VList []).

(** The farewell printed on [quit]. *)
Definition farewell : string :=
  "
🙏 Thank you for using Detty-December Advisor! Enjoy Lagos! Stay safe!".


(** The two chat records of one exchange. *)
Definition exchange_records (ua : string * string) : list value :=
  [chat_message "user" (fst ua); chat_message "agent" (snd ua)].

(** The object the constructor built for [uid] at clock reading [now],
    once the loop has recorded the exchanges [chat] and nothing else has
    written to it. *)
Definition profile_after_chat (uid : string) (now : nat)
    (chat : list (string * string)) : TouristProfile :=
  {| user_id := uid; created_at := now;
     preferences := default_preferences;
     memory_bank :=
       [ ("visited_places", []);
         ("saved_restaurants", []);
         ("bookings", []);
         ("safety_alerts", []);
         ("chat_history", flat_map exchange_records chat) ];
     session_state := "active" |}.

(** What holds of the driver whenever the loop is at [input] or has
    been left: one session, the one of the tourist; its profile is the
    constructor's apart from the chat history; the orchestrator was
    constructed from that profile when it was new. *)
Definition driver_inv (d : Driver) : Prop :=
  exists now chat,
    sessions (world d) = {[ tourist_id d := session d ]} /\
    heap (world d) !! session d =
      Some (profile_after_chat (tourist_id d) now chat) /\
    orchestrator d =
      orchestrator_agent (profile_context (fresh_profile (tourist_id d) now)) /\
    tourist_id d <> "".

(** The driver in which a run ends, if no exception left the function. *)
Definition final_driver (o : outcome) : option Driver :=
  match o with
  | Continue d | Break d => Some d
  | Propagate _ _ => None
  end.

(** The line is not the command [clear]. *)
Definition not_clear (t : Turn) : Prop := lower (strip (line t)) <> "clear".

(** The tourist id the function settles on for the line [name_line]:
    the stripped line, or a generated one when that is empty; the clock
    of a fresh process is at its first reading. *)
Definition start_id (name_line : string) : string :=
  if String.eqb (strip name_line) "" then "Tourist-" +:+ now_timestamp 0
  else strip name_line.

(** [save_to_memory] called once for each of [items], in order. *)
Fixpoint save_each (self : nat) (category : string) (items : list value)
  : M unit :=
  match items with
  | [] => mret tt
  | item :: rest =>
      save_to_memory self category item;;
      save_each self category rest
  end.

(** The records these calls append when the clock is at reading [now]
    before the first of them. *)
Fixpoint entries_from (now : nat) (items : list value) : list value :=
  match items with
  | [] => []
  | item :: rest => memory_entry item now :: entries_from (S now) rest
  end.

(** No two tourist ids share one profile object. *)
Definition sessions_apart (w : World) : Prop :=
  forall uid1 uid2 l,
    sessions w !! uid1 = Some l -> sessions w !! uid2 = Some l -> uid1 = uid2.

(** ** Dictionaries and slices *)

Lemma dict_get_alter_eq {V : Type} (f : V -> V) k (d : list (string * V)) :
  dict_get k (dict_alter f k d) = option_map f (dict_get k d).
Proof.
  induction d as [|[k' v] d IH]; simpl; [reflexivity|].
  destruct (String.eqb k k') eqn:E; simpl; rewrite E; auto.
Qed.

Lemma dict_get_alter_ne {V : Type} (f : V -> V) k k' (d : list (string * V)) :
  k <> k' -> dict_get k' (dict_alter f k d) = dict_get k' d.
Proof.
  intros Hne. induction d as [|[k0 v] d IH]; simpl; [reflexivity|].
  destruct (String.eqb k k0) eqn:E; simpl.
  - apply String.eqb_eq in E. subst k0.
    destruct (String.eqb k' k) eqn:E'; [|reflexivity].
    apply String.eqb_eq in E'. congruence.
  - destruct (String.eqb k' k0); auto.
Qed.

Lemma dict_keys_alter {V : Type} (f : V -> V) k (d : list (string * V)) :
  dict_keys (dict_alter f k d) = dict_keys d.
Proof.
  unfold dict_keys. induction d as [|[k' v] d IH]; simpl; [reflexivity|].
  destruct (String.eqb k k'); simpl; congruence.
Qed.

Lemma dict_get_None_keys {V : Type} k (d : list (string * V)) :
  dict_get k d = None <-> ~ In k (dict_keys d).
Proof.
  unfold dict_keys. induction d as [|[k' v] d IH]; simpl; [tauto|].
  destruct (String.eqb k k') eqn:E.
  - apply String.eqb_eq in E. split; [discriminate|]. intros H. exfalso. auto.
  - apply String.eqb_neq in E. rewrite IH. split.
    + intros H [H'|H']; [congruence|auto].
    + intros H H'. apply H. auto.
Qed.

Lemma dict_get_map_values {V W : Type} (f : V -> W) k (d : list (string * V)) :
  dict_get k (map (fun kv => (fst kv, f (snd kv))) d) = option_map f (dict_get k d).
Proof.
  induction d as [|[k' v] d IH]; simpl; [reflexivity|].
  destruct (String.eqb k k'); auto.
Qed.

(** [l[-n:]] is the end of [l], of length [min n (len l)]. *)
Lemma slice_from_neg_suffix {A : Type} (n : nat) (l : list A) :
  (0 < n)%nat ->
  exists older, l = (older ++ slice_from (- Z.of_nat n) l)%list /\
                length (slice_from (- Z.of_nat n) l) = Nat.min n (length l).
Proof.
  intros Hn. unfold slice_from.
  assert (Hlt : (- Z.of_nat n <? 0) = true) by (apply Z.ltb_lt; lia).
  rewrite Hlt.
  exists (firstn (Z.to_nat (Z.max 0 (- Z.of_nat n + Z.of_nat (length l)))) l).
  split.
  - symmetry. apply firstn_skipn.
  - rewrite length_skipn. lia.
Qed.

(** ** The memory bank *)

Lemma memory_wf_init uid now :
  memory_wf {| user_id := uid; created_at := now;
               preferences := default_preferences;
               memory_bank := empty_memory_bank; session_state := "active" |}.
Proof. reflexivity. Qed.

Lemma memory_wf_extend category items p :
  memory_wf p -> memory_wf (extend_category category items p).
Proof.
  unfold memory_wf, extend_category. simpl. intros H.
  rewrite dict_keys_alter. exact H.
Qed.

Lemma memory_wf_mem category p :
  memory_wf p ->
  dict_mem category (memory_bank p) = true <-> In category memory_categories.
Proof.
  intros Hwf. unfold dict_mem. rewrite <- Hwf.
  destruct (dict_get category (memory_bank p)) eqn:E.
  - split; [intros _|reflexivity].
    destruct (in_dec string_dec category (dict_keys (memory_bank p))) as [Hin|Hn];
      [exact Hin|].
    apply dict_get_None_keys in Hn. congruence.
  - apply dict_get_None_keys in E. split; [discriminate|tauto].
Qed.

(** Unfolding of the monad in a goal. *)
Ltac run_M :=
  unfold mbind, M_bind, mret, M_ret, lift, result_bind, result_ret; simpl.

(** C6. For every profile and every category of its memory bank, the
    projection of [to_dict] holds at most five entries of the category,
    and these are the last entries of the category in the order in which
    they were appended: the category is some older entries followed by
    the projected ones, which are five as soon as the category holds
    five or more. *)
Theorem C6_to_dict_last_five (self : nat) (w : World) (p : TouristProfile)
    (category : string) (entries : list value) :
  heap w !! self = Some p ->
  dict_get category (memory_bank p) = Some entries ->
  exists projection recent_memory recent older,
    to_dict self w = (Ok projection, w) /\
    dict_get "recent_memory" projection = Some (VDict recent_memory) /\
    dict_get category recent_memory = Some (VList recent) /\
    entries = (older ++ recent)%list /\
    (length recent <= 5)%nat /\
    length recent = Nat.min 5 (length entries).
Proof.
  intros Hp Hcat.
  destruct (slice_from_neg_suffix 5 entries) as [older [Hsplit Hlen]]; [lia|].
  change (- Z.of_nat 5) with (-5) in *.
  exists (profile_dict p).
  exists (map (fun kv => (fst kv, VList (slice_from (-5) (snd kv)))) (memory_bank p)).
  exists (slice_from (-5) entries), older.
  split; [|split; [|split; [|split; [|split]]]].
  - unfold to_dict, deref. run_M. rewrite Hp. reflexivity.
  - reflexivity.
  - rewrite (dict_get_map_values (fun v => VList (slice_from (-5) v))).
    rewrite Hcat. reflexivity.
  - exact Hsplit.
  - rewrite Hlen. lia.
  - exact Hlen.
Qed.

(** C7. [save_to_memory] on a profile whose memory bank has the five
    categories: for one of the five names the category grows by exactly
    one entry, the new record last, every other category and every other
    object unchanged and no key added; for any other name the call
    returns normally and leaves the whole world as it was. *)
Theorem C7_save_to_memory (self : nat) (category : string) (item : value)
    (w : World) (p : TouristProfile) :
  heap w !! self = Some p ->
  memory_wf p ->
  (In category memory_categories ->
   exists old w' p',
     dict_get category (memory_bank p) = Some old /\
     save_to_memory self category item w = (Ok tt, w') /\
     heap w' !! self = Some p' /\
     dict_get category (memory_bank p') =
       Some (old ++ [VDict [("data", item);
                            ("timestamp", VStr (now_isoformat (ticks w)))]])%list /\
     (forall c, c <> category ->
                dict_get c (memory_bank p') = dict_get c (memory_bank p)) /\
     dict_keys (memory_bank p') = dict_keys (memory_bank p) /\
     (forall l, l <> self -> heap w' !! l = heap w !! l) /\
     sessions w' = sessions w) /\
  (~ In category memory_categories ->
   save_to_memory self category item w = (Ok tt, w)).
Proof.
  intros Hp Hwf. split; intros Hin.
  - apply (memory_wf_mem category p Hwf) in Hin.
    unfold dict_mem in Hin.
    destruct (dict_get category (memory_bank p)) as [old|] eqn:Hold; [|discriminate].
    eexists old, _, _. split; [reflexivity|]. split.
    { unfold save_to_memory, deref, dict_mem, datetime_now, assign. run_M.
      rewrite Hp, Hold. reflexivity. }
    simpl. split; [apply lookup_insert_eq|].
    unfold extend_category; simpl. split.
    { rewrite dict_get_alter_eq, Hold. reflexivity. }
    split; [intros c Hc; apply dict_get_alter_ne; congruence|].
    split; [apply dict_keys_alter|].
    split; [intros l Hl; apply lookup_insert_ne; congruence|reflexivity].
  - assert (Hmem : dict_mem category (memory_bank p) = false).
    { destruct (dict_mem category (memory_bank p)) eqn:E; [|reflexivity].
      apply (memory_wf_mem category p Hwf) in E. contradiction. }
    unfold save_to_memory, deref. run_M. rewrite Hp, Hmem. reflexivity.
Qed.

(** ** Lookup tools *)

Lemma safety_db_unknown (location : string) :
  location <> "Lekki" -> location <> "VI" -> location <> "Surulere" ->
  location <> "Ikoyi" ->
  dict_get location safety_db = None.
Proof.
  intros H1 H2 H3 H4. unfold safety_db. simpl.
  apply String.eqb_neq in H1, H2, H3, H4.
  rewrite H1, H2, H3, H4. reflexivity.
Qed.

Lemma check_safety_status_miss (location : string) :
  dict_get location safety_db = None ->
  check_safety_status location "day" =
    Ok [ ("location", VStr location);
         ("time_of_day", VStr "day");
         ("safety_score", VInt 5);
         ("status", VStr "caution");
         ("alerts", VList [VStr "Check latest info"]);
         ("recommendation", VStr "Exercise caution");
         ("emergency_contacts", emergency_contacts) ] /\
  check_safety_status location "night" =
    Ok [ ("location", VStr location);
         ("time_of_day", VStr "night");
         ("safety_score", VInt 3);
         ("status", VStr "avoid");
         ("alerts", VList [VStr "Check latest info"]);
         ("recommendation", VStr "Exercise caution");
         ("emergency_contacts", emergency_contacts) ].
Proof.
  intros Hmiss. unfold check_safety_status. rewrite Hmiss. split; reflexivity.
Qed.

Lemma dict_mem_false {V : Type} k (d : list (string * V)) :
  negb (dict_mem k d) = true -> dict_get k d = None.
Proof.
  unfold dict_mem. destruct (dict_get k d); [discriminate|reflexivity].
Qed.

Lemma table_get_absent {K V : Type} `{EqDecision K} (k : K) (t : list (K * V)) :
  negb (bool_decide (is_Some (table_get k t))) = true -> table_get k t = None.
Proof.
  intros H. apply negb_true_iff, bool_decide_eq_false in H.
  destruct (table_get k t); [|reflexivity]. exfalso. apply H. eauto.
Qed.

(** A time of day that is neither ["day"] nor ["night"] is looked up in
    the entry of the location all the same. *)
Example check_safety_status_evening :
  check_safety_status "Mushin" "evening" = Raise (KeyError "evening").
Proof. reflexivity. Qed.

Example get_local_tips_unknown :
  get_local_tips "weather" =
    [ ("category", VStr "weather"); ("tips", VList []);
      ("last_updated", VStr "2025-11-16");
      ("source", VStr "Local Lagos Tourism Guide") ].
Proof. reflexivity. Qed.

(** C2, as stated, fails: the location ["Mushin"] is not in the safety
    table, and the safety check answers with the status ["caution"] and
    one alert, not with an empty ["success"] envelope. *)
Lemma C2_counterexample :
  exists envelope,
    key_absent (SafetyCheck "Mushin" "day") = true /\
    check_safety_status "Mushin" "day" = Ok envelope /\
    dict_get "status" envelope = Some (VStr "caution") /\
    dict_get "alerts" envelope = Some (VList [VStr "Check latest info"]) /\
    ~ empty_success (SafetyCheck "Mushin" "day") envelope.
Proof.
  eexists. split; [reflexivity|]. split; [reflexivity|].
  split; [reflexivity|]. split; [reflexivity|].
  intros [Hstatus _]. discriminate Hstatus.
Qed.

(** C2, amended. For a key that is absent from the table of the tool:
    the attraction search and the hotel search return an envelope with
    status ["success"], a count of 0 and an empty item list; the local
    tips return an envelope with an empty list of tips whose only
    fields are category, tips, last_updated and source, so that it has
    neither a status nor a count field; the safety check, asked for ["day"] or ["night"], returns the
    default envelope with status ["caution"] or ["avoid"] and one alert.
    None of these calls raises. *)
Theorem C2_miss_answers (q : Lookup) (w : World) :
  key_absent q = true ->
  match q with
  | AttractionSearch _ _ _ =>
      exists envelope w',
        call q w = (Ok envelope, w') /\ empty_success q envelope /\
        dict_get "count" envelope = Some (VInt 0)
  | HotelSearch _ _ _ _ =>
      exists envelope,
        call q w = (Ok envelope, w) /\ empty_success q envelope /\
        dict_get "hotel_count" envelope = Some (VInt 0)
  | LocalTips _ =>
      exists envelope,
        call q w = (Ok envelope, w) /\
        dict_get "tips" envelope = Some (VList []) /\
        dict_get "status" envelope = None /\
        dict_get "count" envelope = None /\
        dict_keys envelope = ["category"; "tips"; "last_updated"; "source"]
  | SafetyCheck _ time_of_day =>
      time_of_day = "day" \/ time_of_day = "night" ->
      exists envelope,
        call q w = (Ok envelope, w) /\
        dict_get "status" envelope =
          Some (VStr (if String.eqb time_of_day "day" then "caution" else "avoid")) /\
        dict_get "alerts" envelope = Some (VList [VStr "Check latest info"])
  end.
Proof.
  destruct q as [location category budget|location time_of_day
                |location budget nights checkin_date|category];
    intros Habs; cbv beta iota delta [key_absent call empty_success items_field] in *.
  - apply table_get_absent in Habs.
    eexists _, _. unfold search_attractions. rewrite Habs.
    unfold datetime_now. run_M. split; [reflexivity|].
    split; [split; reflexivity|reflexivity].
  - apply dict_mem_false in Habs.
    destruct (check_safety_status_miss location Habs) as [Hday Hnight].
    intros [-> | ->]; eexists; unfold lift.
    + rewrite Hday. split; [reflexivity|]. split; reflexivity.
    + rewrite Hnight. split; [reflexivity|]. split; reflexivity.
  - apply table_get_absent in Habs.
    eexists. unfold lift, search_hotels. rewrite Habs. simpl.
    split; [reflexivity|]. split; [split; reflexivity|reflexivity].
  - apply dict_mem_false in Habs.
    eexists. unfold get_local_tips. rewrite Habs.
    run_M. split; [reflexivity|]. repeat split; reflexivity.
Qed.

(** C10. For a location that is none of Lekki, VI, Surulere and Ikoyi,
    [check_safety_status] returns the default envelope: score 5 and
    status ["caution"] by day, score 3 and status ["avoid"] by night,
    the alert ["Check latest info"], the recommendation
    ["Exercise caution"] and the emergency contacts. *)
Theorem C10_unknown_location_default (location : string) :
  location <> "Lekki" -> location <> "VI" -> location <> "Surulere" ->
  location <> "Ikoyi" ->
  check_safety_status location "day" =
    Ok [ ("location", VStr location);
         ("time_of_day", VStr "day");
         ("safety_score", VInt 5);
         ("status", VStr "caution");
         ("alerts", VList [VStr "Check latest info"]);
         ("recommendation", VStr "Exercise caution");
         ("emergency_contacts",
           VDict [ ("police", VStr "999"); ("ambulance", VStr "112");
                   ("tourism_hotline", VStr "+234 700 000 0000") ]) ] /\
  check_safety_status location "night" =
    Ok [ ("location", VStr location);
         ("time_of_day", VStr "night");
         ("safety_score", VInt 3);
         ("status", VStr "avoid");
         ("alerts", VList [VStr "Check latest info"]);
         ("recommendation", VStr "Exercise caution");
         ("emergency_contacts",
           VDict [ ("police", VStr "999"); ("ambulance", VStr "112");
                   ("tourism_hotline", VStr "+234 700 000 0000") ]) ].
Proof.
  intros H1 H2 H3 H4.
  exact (check_safety_status_miss location (safety_db_unknown location H1 H2 H3 H4)).
Qed.

(** ** The session store *)

Lemma get_or_create_session_found uid l w :
  sessions w !! uid = Some l ->
  get_or_create_session uid w = (Ok l, w).
Proof.
  intros H. unfold get_or_create_session, sessions_get. run_M.
  rewrite H. reflexivity.
Qed.

Lemma get_or_create_session_new uid w :
  sessions w !! uid = None ->
  get_or_create_session uid w =
    (Ok (next_loc w),
     {| heap := <[next_loc w := fresh_profile uid (ticks w)]> (heap w);
        next_loc := S (next_loc w);
        sessions := <[uid := next_loc w]> (sessions w);
        ticks := S (ticks w) |}).
Proof.
  intros H. unfold get_or_create_session, sessions_get. run_M.
  rewrite H. reflexivity.
Qed.

Lemma save_to_memory_known self category item w p old :
  heap w !! self = Some p ->
  dict_get category (memory_bank p) = Some old ->
  save_to_memory self category item w =
    (Ok tt,
     {| heap := <[self := extend_category category
                            [memory_entry item (ticks w)] p]> (heap w);
        next_loc := next_loc w;
        sessions := sessions w;
        ticks := S (ticks w) |}).
Proof.
  intros Hp Hold. unfold save_to_memory, deref, dict_mem, datetime_now, assign.
  run_M. rewrite Hp, Hold. reflexivity.
Qed.

Lemma world_wf_initial : world_wf initial_world.
Proof.
  split.
  - intros uid l H. simpl in H. rewrite lookup_empty in H. discriminate.
  - intros l p H. simpl in H. rewrite lookup_empty in H. discriminate.
Qed.

(** An object is replaced by one whose memory bank is well formed. *)
Lemma world_wf_update w self p p' n :
  world_wf w -> heap w !! self = Some p -> memory_wf p' ->
  world_wf {| heap := <[self := p']> (heap w); next_loc := next_loc w;
              sessions := sessions w; ticks := n |}.
Proof.
  intros [Hs Hh] Hp Hwf. split; simpl.
  - intros uid l H. destruct (decide (self = l)) as [->|Hne].
    + rewrite lookup_insert_eq. eauto.
    + rewrite lookup_insert_ne by exact Hne. eauto.
  - intros l q H. destruct (decide (self = l)) as [->|Hne].
    + rewrite lookup_insert_eq in H. inversion H; subst.
      split; [apply (Hh l p Hp)|exact Hwf].
    + rewrite lookup_insert_ne in H by exact Hne. eauto.
Qed.

(** A new object is allocated and entered under [uid]. *)
Lemma world_wf_create w uid now n :
  world_wf w ->
  world_wf {| heap := <[next_loc w := fresh_profile uid now]> (heap w);
              next_loc := S (next_loc w);
              sessions := <[uid := next_loc w]> (sessions w);
              ticks := n |}.
Proof.
  intros [Hs Hh]. split; simpl.
  - intros u l H. destruct (decide (uid = u)) as [->|Hne].
    + rewrite lookup_insert_eq in H. inversion H; subst.
      rewrite lookup_insert_eq. eauto.
    + rewrite lookup_insert_ne in H by exact Hne.
      destruct (Hs u l H) as [q Hq].
      destruct (decide (next_loc w = l)) as [->|Hl].
      * rewrite lookup_insert_eq. eauto.
      * rewrite lookup_insert_ne by exact Hl. eauto.
  - intros l q H. destruct (decide (next_loc w = l)) as [<-|Hl].
    + rewrite lookup_insert_eq in H. inversion H; subst.
      split; [lia|reflexivity].
    + rewrite lookup_insert_ne in H by exact Hl.
      destruct (Hh l q H). split; [lia|assumption].
Qed.

(** Sessions are removed; the objects stay. *)
Lemma world_wf_delete w uid :
  world_wf w ->
  world_wf {| heap := heap w; next_loc := next_loc w;
              sessions := delete uid (sessions w); ticks := ticks w |}.
Proof.
  intros [Hs Hh]. split; simpl; [|exact Hh].
  intros u l H. apply lookup_delete_Some in H. destruct H as [_ H]. eauto.
Qed.

Lemma get_or_create_session_wf uid w :
  world_wf w ->
  exists l w' p,
    get_or_create_session uid w = (Ok l, w') /\
    world_wf w' /\
    sessions w' !! uid = Some l /\
    heap w' !! l = Some p /\
    profile_of w' uid = Some p /\
    (profile_of w uid = None -> p = fresh_profile uid (ticks w)) /\
    (forall q, profile_of w uid = Some q -> p = q /\ w' = w).
Proof.
  intros Hwf. destruct (sessions w !! uid) as [l|] eqn:Hs.
  - destruct (proj1 Hwf uid l Hs) as [p Hp].
    exists l, w, p. rewrite (get_or_create_session_found uid l w Hs).
    unfold profile_of. rewrite Hs, Hp.
    split; [reflexivity|]. split; [exact Hwf|]. split; [reflexivity|].
    split; [reflexivity|]. split; [reflexivity|].
    split; [discriminate|]. intros q Hq. split; congruence.
  - eexists _, _, _. rewrite (get_or_create_session_new uid w Hs).
    split; [reflexivity|]. split; [apply world_wf_create; exact Hwf|].
    simpl. split; [apply lookup_insert_eq|].
    split; [apply lookup_insert_eq|].
    unfold profile_of. simpl. rewrite Hs, !lookup_insert_eq.
    split; [reflexivity|]. split; [reflexivity|]. discriminate.
Qed.

Lemma memory_wf_get category p :
  memory_wf p -> In category memory_categories ->
  exists old, dict_get category (memory_bank p) = Some old.
Proof.
  intros Hwf Hin. apply (memory_wf_mem category p Hwf) in Hin.
  unfold dict_mem in Hin.
  destruct (dict_get category (memory_bank p)); [eauto|discriminate].
Qed.

Lemma bind_ok {A B : Type} (c : M A) (f : A -> M B) w a w' :
  c w = (Ok a, w') -> (c ≫= f) w = f a w'.
Proof. intros H. unfold mbind, M_bind. rewrite H. reflexivity. Qed.

(** ** The reminder tool *)

(** What [make_booking_reminder] stores as the data of the entry. *)
Lemma make_booking_reminder_once location activity date time uid w :
  world_wf w ->
  exists w' now,
    make_booking_reminder location activity date time uid w =
      (Ok [ ("status", VStr "success");
            ("reminder_id",
              VStr ("REM-" +:+ uid +:+ "-" +:+ date +:+ "-" +:+ activity));
            ("activity", VStr activity);
            ("location", VStr location);
            ("scheduled_date", VStr date);
            ("scheduled_time", VStr time);
            ("message",
              VStr ("Reminder set for " +:+ activity +:+ " at " +:+ location
                    +:+ " on " +:+ date +:+ " at " +:+ time));
            ("notification_method", VStr "SMS + Email (simulated)") ], w') /\
    world_wf w' /\
    memory_of w' uid "bookings" =
      (memory_of w uid "bookings"
       ++ [memory_entry
             (VDict [ ("activity", VStr activity);
                      ("location", VStr location);
                      ("date", VStr date);
                      ("time", VStr time);
                      ("status", VStr "reminder_set") ]) now])%list.
Proof.
  intros Hwf.
  destruct (get_or_create_session_wf uid w Hwf)
    as (l & w1 & p & Hgc & Hwf1 & Hs1 & Hp1 & _ & Hnew & Hold).
  assert (Hmwf : memory_wf p) by apply (proj2 Hwf1 l p Hp1).
  destruct (memory_wf_get "bookings" p Hmwf) as [old Hget];
    [simpl; auto 10|].
  eexists _, (ticks w1). unfold make_booking_reminder.
  rewrite (bind_ok _ _ _ _ _ Hgc).
  rewrite (bind_ok _ _ _ _ _ (save_to_memory_known l "bookings" _ w1 p old Hp1 Hget)).
  split; [reflexivity|]. split.
  - apply (world_wf_update w1 l p); [exact Hwf1|exact Hp1|].
    apply memory_wf_extend. exact Hmwf.
  - unfold memory_of at 1. unfold profile_of. simpl.
    rewrite Hs1, lookup_insert_eq. unfold extend_category. simpl.
    rewrite dict_get_alter_eq, Hget. simpl.
    unfold memory_of. destruct (profile_of w uid) as [q|] eqn:Hq.
    + destruct (Hold q eq_refl) as [<- _]. rewrite Hget. reflexivity.
    + rewrite (Hnew eq_refl) in Hget. simpl in Hget. inversion Hget.
      reflexivity.
Qed.

(** C5. Two calls of the reminder tool for the same tourist id,
    activity, date and time, one after the other: both return the same
    reminder identifier, and the bookings of the tourist's profile end up
    with two more entries than before, one appended by each call. *)
Theorem C5_reminder_twice (location1 location2 activity date time uid : string)
    (w : World) :
  world_wf w ->
  exists envelope1 w1 envelope2 w2 entry1 entry2,
    make_booking_reminder location1 activity date time uid w = (Ok envelope1, w1) /\
    make_booking_reminder location2 activity date time uid w1 = (Ok envelope2, w2) /\
    dict_get "reminder_id" envelope1 =
      Some (VStr ("REM-" +:+ uid +:+ "-" +:+ date +:+ "-" +:+ activity)) /\
    dict_get "reminder_id" envelope2 = dict_get "reminder_id" envelope1 /\
    memory_of w2 uid "bookings" =
      (memory_of w uid "bookings" ++ [entry1; entry2])%list /\
    length (memory_of w2 uid "bookings") =
      (length (memory_of w uid "bookings") + 2)%nat.
Proof.
  intros Hwf.
  destruct (make_booking_reminder_once location1 activity date time uid w Hwf)
    as (w1 & now1 & Hcall1 & Hwf1 & Hmem1).
  destruct (make_booking_reminder_once location2 activity date time uid w1 Hwf1)
    as (w2 & now2 & Hcall2 & Hwf2 & Hmem2).
  eexists _, w1, _, w2, _, _.
  split; [exact Hcall1|]. split; [exact Hcall2|].
  split; [reflexivity|]. split; [reflexivity|].
  rewrite Hmem2, Hmem1, <- app_assoc. simpl.
  split; [reflexivity|].
  rewrite length_app. reflexivity.
Qed.

(** ** The orchestrator and its context *)

Arguments context_template : simpl never.
Arguments orchestrator_instructions : simpl never.
Arguments orchestrator_agent : simpl never.

Lemma to_dict_at self w p :
  heap w !! self = Some p -> to_dict self w = (Ok (profile_dict p), w).
Proof. intros H. unfold to_dict, deref. run_M. rewrite H. reflexivity. Qed.

Lemma context_text_profile p :
  context_text (profile_dict p) = Ok (profile_context p).
Proof. reflexivity. Qed.

Lemma build_orchestrator_context_at tid l w p :
  sessions w !! tid = Some l -> heap w !! l = Some p ->
  build_orchestrator_context tid w = (Ok (profile_context p), w).
Proof.
  intros Hs Hp. unfold build_orchestrator_context.
  rewrite (bind_ok _ _ _ _ _ (get_or_create_session_found tid l w Hs)).
  rewrite (bind_ok _ _ _ _ _ (to_dict_at l w p Hp)).
  unfold lift. rewrite context_text_profile. reflexivity.
Qed.

Lemma create_orchestrator_agent_at tid l w p :
  sessions w !! tid = Some l -> heap w !! l = Some p ->
  create_orchestrator_agent tid w = (Ok (orchestrator_agent (profile_context p)), w).
Proof.
  intros Hs Hp. unfold create_orchestrator_agent.
  rewrite (bind_ok _ _ _ _ _ (build_orchestrator_context_at tid l w p Hs Hp)).
  reflexivity.
Qed.

Lemma create_orchestrator_agent_new tid w :
  sessions w !! tid = None ->
  create_orchestrator_agent tid w =
    (Ok (orchestrator_agent (profile_context (fresh_profile tid (ticks w)))),
     session_created tid w).
Proof.
  intros Hs.
  assert (Hctx : build_orchestrator_context tid w =
                 (Ok (profile_context (fresh_profile tid (ticks w))),
                  session_created tid w)).
  { unfold build_orchestrator_context.
    rewrite (bind_ok _ _ _ _ _ (get_or_create_session_new tid w Hs)).
    fold (session_created tid w).
    erewrite (bind_ok (to_dict _)); [|apply to_dict_at; apply lookup_insert_eq].
    unfold lift. rewrite context_text_profile. reflexivity. }
  unfold create_orchestrator_agent.
  rewrite (bind_ok _ _ _ _ _ Hctx). reflexivity.
Qed.

(** ** The conversation loop *)

Lemma session_created_lookup uid w :
  sessions (session_created uid w) !! uid = Some (next_loc w) /\
  heap (session_created uid w) !! next_loc w = Some (fresh_profile uid (ticks w)).
Proof. split; apply lookup_insert_eq. Qed.

Lemma clear_session_eq d :
  clear_session d =
    Continue
      (print "✨ Session cleared. Let's start fresh!
"
         (mkDriver (session_created (tourist_id d)
                      (without_session (tourist_id d) (world d)))
                   (stdout d) (tourist_id d)
                   (orchestrator_agent
                      (profile_context
                         (fresh_profile (tourist_id d) (ticks (world d)))))
                   (next_loc (world d)) (conversation_history d))).
Proof.
  unfold clear_session.
  assert (Hfind : sessions_get (tourist_id d) (world d)
                  = (Ok (sessions (world d) !! tourist_id d), world d))
    by reflexivity.
  assert (Hdel : (if sessions (world d) !! tourist_id d is Some _
                  then sessions_del (tourist_id d) else mret tt) (world d)
                 = (Ok tt, without_session (tourist_id d) (world d))).
  { unfold sessions_del, without_session.
    destruct (sessions (world d) !! tourist_id d) eqn:E;
      [cbv beta; rewrite E; reflexivity|].
    rewrite (delete_id _ _ E). destruct (world d); reflexivity. }
  assert (Hnone : sessions (without_session (tourist_id d) (world d))
                  !! tourist_id d = None)
    by apply lookup_delete_eq.
  pose proof (create_orchestrator_agent_new (tourist_id d) _ Hnone) as Hcreate.
  destruct (session_created_lookup (tourist_id d)
              (without_session (tourist_id d) (world d))) as [Hs _].
  pose proof (get_or_create_session_found (tourist_id d) _ _ Hs) as Hget.
  rewrite (bind_ok _ _ _ _ _ Hfind).
  rewrite (bind_ok _ _ _ _ _ Hdel).
  rewrite (bind_ok _ _ _ _ _ Hcreate).
  rewrite (bind_ok _ _ _ _ _ Hget).
  reflexivity.
Qed.

Lemma loop_body_clear d t :
  lower (strip (line t)) = "clear" ->
  loop_body d t = clear_session (print (prompt d) d).
Proof.
  intros H. unfold loop_body.
  destruct (strip (line t)) as [|c r] eqn:E; [discriminate H|].
  rewrite H. reflexivity.
Qed.

Lemma loop_body_utterance d t :
  utterance (line t) ->
  loop_body d t =
    Continue (process_turn (print (prompt d) d) (strip (line t)) (generation t)).
Proof.
  intros (H1 & H2 & H3). unfold loop_body.
  apply String.eqb_neq in H1, H2, H3. rewrite H1, H2, H3. reflexivity.
Qed.

Lemma extend_chat_history_ok self items w p old :
  heap w !! self = Some p ->
  dict_get "chat_history" (memory_bank p) = Some old ->
  extend_chat_history self items w =
    (Ok tt,
     {| heap := <[self := extend_category "chat_history" items p]> (heap w);
        next_loc := next_loc w; sessions := sessions w; ticks := ticks w |}).
Proof.
  intros Hp Hold. unfold extend_chat_history, deref, subscript, assign. run_M.
  rewrite Hp, Hold. reflexivity.
Qed.

Lemma extend_chat_history_raise self items w e w' :
  extend_chat_history self items w = (Raise e, w') -> w' = w.
Proof.
  unfold extend_chat_history, deref, subscript, assign. run_M.
  destruct (heap w !! self) as [p|]; [|intros H; inversion H; reflexivity].
  destruct (dict_get "chat_history" (memory_bank p));
    intros H; inversion H; reflexivity.
Qed.

(** A fault inside [try] leaves the world and the console as they were. *)
Lemma try_block_raise user_input generation d e d1 :
  try_block user_input generation d = (Raise e, d1) ->
  world d1 = world d /\ stdout d1 = stdout d /\ tourist_id d1 = tourist_id d /\
  orchestrator d1 = orchestrator d /\ session d1 = session d.
Proof.
  unfold try_block.
  destruct (response ← generation; extract_text response) as [reply|e0].
  - destruct (extend_chat_history _ _ _) as [[u|e1] w1] eqn:Hext;
      intros H; inversion H; subst; simpl.
    apply extend_chat_history_raise in Hext. simpl in Hext. subst w1.
    repeat split; reflexivity.
  - intros H; inversion H; subst. repeat split; reflexivity.
Qed.

Lemma try_block_ok user_input generation d response reply p old :
  generation = Ok response ->
  extract_text response = Ok reply ->
  heap (world d) !! session d = Some p ->
  dict_get "chat_history" (memory_bank p) = Some old ->
  try_block user_input generation d =
    (Ok tt,
     print ("
🤖 Tourism Advisor:
" +:+ reply +:+ "
")
       (set_world
          {| heap := <[session d :=
                         extend_category "chat_history"
                           [ chat_message "user" user_input;
                             chat_message "agent" reply ] p]> (heap (world d));
             next_loc := next_loc (world d);
             sessions := sessions (world d);
             ticks := ticks (world d) |}
          (append_history (chat_message "agent" reply) d))).
Proof.
  intros -> Hex Hp Hold. unfold try_block.
  change (response0 ← Ok response; extract_text response0)
    with (extract_text response).
  rewrite Hex.
  change (session (append_history (chat_message "agent" reply) d))
    with (session d).
  change (world (append_history (chat_message "agent" reply) d))
    with (world d).
  rewrite (extend_chat_history_ok _ _ _ p old Hp Hold). reflexivity.
Qed.

Lemma driver_wf_clear d :
  world_wf (world d) ->
  forall d', clear_session d = Continue d' -> driver_wf d'.
Proof.
  intros Hwf d' H. rewrite clear_session_eq in H. inversion H; subst; clear H.
  split; simpl.
  - apply (world_wf_create (without_session (tourist_id d) (world d))).
    apply world_wf_delete. exact Hwf.
  - apply lookup_insert_eq.
Qed.

Lemma driver_wf_process_turn d user_input generation :
  driver_wf d -> driver_wf (process_turn d user_input generation).
Proof.
  intros [Hwf Hs]. unfold process_turn.
  destruct (try_block _ _ _) as [[u|e] d1] eqn:Htry.
  - unfold try_block in Htry.
    destruct (response ← generation; extract_text response) as [reply|e0];
      [|discriminate].
    destruct (extend_chat_history _ _ _) as [[u'|e1] w1] eqn:Hext;
      [|discriminate].
    inversion Htry; subst; clear Htry. simpl in Hext.
    destruct (proj1 Hwf _ _ Hs) as [p Hp].
    destruct (memory_wf_get "chat_history" p (proj2 (proj2 Hwf _ _ Hp)))
      as [old Hold]; [simpl; auto 10|].
    rewrite (extend_chat_history_ok _ _ _ p old Hp Hold) in Hext.
    inversion Hext; subst; clear Hext.
    split; simpl; [|exact Hs].
    apply (world_wf_update (world d) (session d) p); [exact Hwf|exact Hp|].
    apply memory_wf_extend. exact (proj2 (proj2 Hwf _ _ Hp)).
  - destruct (try_block_raise _ _ _ _ _ Htry) as (Hw & _ & Ht & _ & Hses).
    unfold driver_wf, handle_exception. simpl.
    rewrite Hw, Ht, Hses. simpl. split; assumption.
Qed.

Lemma driver_wf_loop_body d t d' :
  driver_wf d -> loop_body d t = Continue d' -> driver_wf d'.
Proof.
  intros Hwf. unfold loop_body.
  destruct (String.eqb (strip (line t)) ""); [intros H; inversion H; exact Hwf|].
  destruct (String.eqb (lower (strip (line t))) "quit"); [discriminate|].
  destruct (String.eqb (lower (strip (line t))) "clear").
  - apply driver_wf_clear. exact (proj1 Hwf).
  - intros H. inversion H. apply driver_wf_process_turn. exact Hwf.
Qed.

Lemma driver_wf_startup name_line w d :
  world_wf w -> startup name_line w = Continue d -> driver_wf d.
Proof.
  intros Hwf. unfold startup.
  set (tid_of := (if String.eqb (strip name_line) "" then _ else _) : M string).
  assert (Htid : exists tid w0, tid_of w = (Ok tid, w0) /\ world_wf w0).
  { unfold tid_of. destruct (String.eqb (strip name_line) "").
    - eexists _, _. split; [reflexivity|]. destruct Hwf as [Hs Hh].
      split; simpl; assumption.
    - eexists _, _. split; [reflexivity|exact Hwf]. }
  destruct Htid as (tid & w0 & Htid & Hwf0).
  destruct (get_or_create_session_wf tid w0 Hwf0)
    as (l & w1 & p & Hgc & Hwf1 & Hs1 & Hp1 & _).
  assert (Hctx : create_orchestrator_agent tid w0 =
                 (Ok (orchestrator_agent (profile_context p)), w1)).
  { unfold create_orchestrator_agent, build_orchestrator_context.
    erewrite bind_ok; [reflexivity|].
    rewrite (bind_ok _ _ _ _ _ Hgc).
    rewrite (bind_ok _ _ _ _ _ (to_dict_at l w1 p Hp1)).
    unfold lift. rewrite context_text_profile. reflexivity. }
  rewrite (bind_ok _ _ _ _ _ Htid).
  rewrite (bind_ok _ _ _ _ _ Hctx).
  rewrite (bind_ok _ _ _ _ _ (get_or_create_session_found tid l w1 Hs1)).
  intros H. inversion H; subst; clear H. split; simpl; assumption.
Qed.

(** Every state in which the loop waits for input is well formed. *)
Lemma run_loop_wf turns : forall d d',
  driver_wf d -> run_loop d turns = Continue d' -> driver_wf d'.
Proof.
  induction turns as [|t rest IH]; intros d d' Hwf; simpl.
  - intros H. inversion H; subst. exact Hwf.
  - destruct (loop_body d t) as [d1|d1|e d1] eqn:Hbody; try discriminate.
    apply IH. exact (driver_wf_loop_body d t d1 Hwf Hbody).
Qed.

Lemma run_tourism_advisor_wf name_line turns d :
  run_tourism_advisor name_line turns = Continue d -> driver_wf d.
Proof.
  unfold run_tourism_advisor.
  destruct (startup name_line initial_world) as [d0|d0|e d0] eqn:Hstart;
    try discriminate.
  apply run_loop_wf.
  exact (driver_wf_startup name_line initial_world d0 world_wf_initial Hstart).
Qed.


(** C4. After the command [clear] the loop waits for input again, and
    the profile the store holds for the tourist id is the one the
    constructor builds: default preferences, five empty categories.  The
    driver's variable [session] is that object, [get_or_create_session]
    returns it, and its projection shows the defaults and no entry. *)
Theorem C4_clear_gives_fresh_profile (d : Driver) (t : Turn) :
  lower (strip (line t)) = "clear" ->
  exists d' p,
    loop_body d t = Continue d' /\
    tourist_id d' = tourist_id d /\
    get_or_create_session (tourist_id d) (world d') = (Ok (session d'), world d') /\
    profile_of (world d') (tourist_id d) = Some p /\
    heap (world d') !! session d' = Some p /\
    p = fresh_profile (tourist_id d) (ticks (world d)) /\
    preferences p =
      [ ("budget", VStr "moderate"); ("interests", VList []);
        ("duration", VInt 0); ("dietary_restrictions", VList []);
        ("mobility_concerns", VList []) ] /\
    memory_bank p =
      [ ("visited_places", []); ("saved_restaurants", []); ("bookings", []);
        ("safety_alerts", []); ("chat_history", []) ] /\
    to_dict (session d') (world d') =
      (Ok [ ("user_id", VStr (tourist_id d));
            ("preferences",
              VDict [ ("budget", VStr "moderate"); ("interests", VList []);
                      ("duration", VInt 0); ("dietary_restrictions", VList []);
                      ("mobility_concerns", VList []) ]);
            ("recent_memory",
              VDict [ ("visited_places", VList []);
                      ("saved_restaurants", VList []);
                      ("bookings", VList []);
                      ("safety_alerts", VList []);
                      ("chat_history", VList []) ]) ],
       world d').
Proof.
  intros Hclear.
  eexists _, (fresh_profile (tourist_id d) (ticks (world d))).
  split.
  { rewrite (loop_body_clear d t Hclear). apply clear_session_eq. }
  simpl.
  assert (Hs : sessions (session_created (tourist_id d)
                 (without_session (tourist_id d) (world d))) !! tourist_id d
               = Some (next_loc (world d))) by apply lookup_insert_eq.
  assert (Hp : heap (session_created (tourist_id d)
                 (without_session (tourist_id d) (world d))) !! next_loc (world d)
               = Some (fresh_profile (tourist_id d) (ticks (world d))))
    by apply lookup_insert_eq.
  split; [reflexivity|].
  split; [apply get_or_create_session_found; exact Hs|].
  split; [unfold profile_of; rewrite Hs; exact Hp|].
  split; [exact Hp|].
  split; [reflexivity|]. split; [reflexivity|]. split; [reflexivity|].
  rewrite (to_dict_at _ _ _ Hp). reflexivity.
Qed.


(** ** Two turns of one session *)

(** A turn does not touch the orchestrator: the agent, and the context
    in its instructions, are those of the last construction. *)
Lemma loop_body_keeps_orchestrator d t d' :
  utterance (line t) -> loop_body d t = Continue d' ->
  orchestrator d' = orchestrator d.
Proof.
  intros Hline. rewrite (loop_body_utterance d t Hline).
  intros H. inversion H; subst; clear H. unfold process_turn.
  destruct (try_block _ _ _) as [[u|e] d1] eqn:Htry.
  - unfold try_block in Htry.
    destruct (response ← generation t; extract_text response) as [reply|e0];
      [|discriminate].
    destruct (extend_chat_history _ _ _) as [[u'|e1] w1]; [|discriminate].
    inversion Htry; subst. reflexivity.
  - destruct (try_block_raise _ _ _ _ _ Htry) as (_ & _ & _ & Horch & _).
    simpl. rewrite Horch. reflexivity.
Qed.

Lemma memory_entry_is_timestamped item now :
  is_timestamped_record (memory_entry item now) = true.
Proof. reflexivity. Qed.

(** C1 at a concrete session.  The tourist T1 asks one question and
    receives the answer.  The store then holds the two entries of the
    turn in the chat history, and the context built from the store shows
    them; the orchestrator that serves the next turn is still the agent
    constructed at the start, whose instructions hold the context of the
    profile as the constructor left it, with no entry at all. *)
Theorem C1_context_is_built_once :
  exists d1 p1,
    run_tourism_advisor "T1"
      [ {| line := "Is Surulere safe at night?";
           generation := Ok (response_with "Take a registered taxi.") |} ]
      = Continue d1 /\
    profile_of (world d1) "T1" = Some p1 /\
    dict_get "chat_history" (memory_bank p1) =
      Some [ chat_message "user" "Is Surulere safe at night?";
             chat_message "agent" "Take a registered taxi." ] /\
    build_orchestrator_context "T1" (world d1) =
      (Ok (profile_context p1), world d1) /\
    orchestrator d1 = orchestrator_agent (profile_context (fresh_profile "T1" 0)) /\
    instructions_of (orchestrator d1) =
      orchestrator_instructions (profile_context (fresh_profile "T1" 0)) /\
    dict_get "recent_memory" (profile_dict p1) <>
    dict_get "recent_memory" (profile_dict (fresh_profile "T1" 0)).
Proof.
  eexists _, _. split; [reflexivity|].
  split; [reflexivity|]. split; [reflexivity|].
  split; [apply (build_orchestrator_context_at "T1" 0); reflexivity|].
  split; [reflexivity|]. split; [reflexivity|]. discriminate.
Qed.

(** C8 at a concrete session.  After the same turn the chat history of
    T1 holds two entries of shape [{role, content}]: neither has a
    [data] or a [timestamp] field. *)
Theorem C8_chat_entries_are_not_timestamped :
  exists d1,
    run_tourism_advisor "T1"
      [ {| line := "Is Surulere safe at night?";
           generation := Ok (response_with "Take a registered taxi.") |} ]
      = Continue d1 /\
    memory_of (world d1) "T1" "chat_history" =
      [ VDict [ ("role", VStr "user");
                ("content", VStr "Is Surulere safe at night?") ];
        VDict [ ("role", VStr "agent");
                ("content", VStr "Take a registered taxi.") ] ] /\
    map is_timestamped_record (memory_of (world d1) "T1" "chat_history") =
      [false; false] /\
    Forall (fun entry =>
              match entry with
              | VDict fields =>
                  dict_get "data" fields = None /\
                  dict_get "timestamp" fields = None
              | _ => False
              end)
           (memory_of (world d1) "T1" "chat_history").
Proof.
  eexists. split; [reflexivity|].
  split; [reflexivity|]. split; [reflexivity|].
  repeat constructor.
Qed.

(** ** Further properties of the session store *)

Lemma dict_get_set_eq {V : Type} k (v : V) (d : list (string * V)) :
  dict_get k (dict_set k v d) = Some v.
Proof.
  induction d as [|[k' v'] d IH]; simpl.
  - rewrite String.eqb_refl. reflexivity.
  - destruct (String.eqb k k') eqn:E; simpl; rewrite E; auto.
Qed.

Lemma dict_get_set_ne {V : Type} k k' (v : V) (d : list (string * V)) :
  k <> k' -> dict_get k' (dict_set k v d) = dict_get k' d.
Proof.
  intros Hne. induction d as [|[k0 v0] d IH]; simpl.
  - apply not_eq_sym, String.eqb_neq in Hne. rewrite Hne. reflexivity.
  - destruct (String.eqb k k0) eqn:E; simpl.
    + apply String.eqb_eq in E. subst k0.
      apply not_eq_sym, String.eqb_neq in Hne. rewrite Hne. reflexivity.
    + destruct (String.eqb k' k0); auto.
Qed.

Lemma dict_keys_set {V : Type} k (v : V) (d : list (string * V)) :
  exists added, dict_keys (dict_set k v d) = (dict_keys d ++ added)%list.
Proof.
  unfold dict_keys. induction d as [|[k' v'] d [added IH]]; simpl.
  - exists [k]. reflexivity.
  - destruct (String.eqb k k'); simpl.
    + exists []. rewrite app_nil_r. reflexivity.
    + exists added. rewrite IH. reflexivity.
Qed.

(** [d.update(other)] key by key, for an [other] without a repeated
    key: the value of [other] where it has one, the old value elsewhere. *)
Lemma dict_get_update {V : Type} k (other : list (string * V)) :
  NoDup (dict_keys other) ->
  forall d,
    dict_get k (dict_update d other) =
      match dict_get k other with
      | Some v => Some v
      | None => dict_get k d
      end.
Proof.
  unfold dict_update.
  induction other as [|[k0 v0] other IH]; intros Hnd d; simpl; [reflexivity|].
  inversion Hnd as [|? ? Hnotin Hnd']; subst.
  rewrite (IH Hnd'). destruct (String.eqb k k0) eqn:E.
  - apply String.eqb_eq in E. subst k0.
    rewrite list_elem_of_In in Hnotin.
    apply dict_get_None_keys in Hnotin. rewrite Hnotin.
    apply dict_get_set_eq.
  - apply String.eqb_neq in E.
    rewrite dict_get_set_ne by congruence. reflexivity.
Qed.

Lemma dict_keys_update {V : Type} (other d : list (string * V)) :
  exists added, dict_keys (dict_update d other) = (dict_keys d ++ added)%list.
Proof.
  unfold dict_update. revert d.
  induction other as [|[k0 v0] other IH]; intros d; simpl.
  - exists []. rewrite app_nil_r. reflexivity.
  - destruct (IH (dict_set k0 v0 d)) as [more Hmore].
    destruct (dict_keys_set k0 v0 d) as [added Hadded].
    exists (added ++ more)%list. rewrite Hmore, Hadded, app_assoc. reflexivity.
Qed.

Lemma update_preferences_at self prefs w p :
  heap w !! self = Some p ->
  update_preferences self prefs w =
    (Ok tt,
     {| heap := <[self := set_preferences (dict_update (preferences p) prefs) p]>
                  (heap w);
        next_loc := next_loc w; sessions := sessions w; ticks := ticks w |}).
Proof.
  intros Hp. unfold update_preferences, deref, assign. run_M.
  rewrite Hp. reflexivity.
Qed.

(** X1. [get_or_create_session] never raises and is idempotent: a
    second call for the same id returns the same object and leaves the
    world as the first call left it. *)
Theorem get_or_create_session_idempotent (uid : string) (w : World) :
  exists l w1,
    get_or_create_session uid w = (Ok l, w1) /\
    sessions w1 !! uid = Some l /\
    get_or_create_session uid w1 = (Ok l, w1).
Proof.
  destruct (sessions w !! uid) as [l|] eqn:Hs.
  - exists l, w. rewrite (get_or_create_session_found uid l w Hs). auto.
  - eexists _, _. rewrite (get_or_create_session_new uid w Hs).
    split; [reflexivity|].
    assert (Hl : sessions (session_created uid w) !! uid = Some (next_loc w))
      by apply lookup_insert_eq.
    split; [exact Hl|].
    apply (get_or_create_session_found uid _ (session_created uid w) Hl).
Qed.

(** X2. First contact: for an id that has no session yet, the profile
    then held for it is the constructor's, with default preferences and
    five empty categories, and the profile of every other id is
    untouched. *)
Theorem get_or_create_session_first_contact (uid : string) (w : World) :
  world_wf w ->
  sessions w !! uid = None ->
  exists l w1,
    get_or_create_session uid w = (Ok l, w1) /\
    world_wf w1 /\
    profile_of w1 uid = Some (fresh_profile uid (ticks w)) /\
    (forall category, memory_of w1 uid category = []) /\
    (forall other, other <> uid -> profile_of w1 other = profile_of w other).
Proof.
  intros Hwf Hs. eexists _, _.
  rewrite (get_or_create_session_new uid w Hs).
  split; [reflexivity|]. split; [apply world_wf_create; exact Hwf|].
  assert (Hnew : profile_of (session_created uid w) uid
                 = Some (fresh_profile uid (ticks w))).
  { unfold profile_of. simpl. rewrite !lookup_insert_eq. reflexivity. }
  split; [exact Hnew|]. split.
  - intros category. unfold memory_of. fold (session_created uid w).
    rewrite Hnew. simpl.
    repeat (destruct (String.eqb category _); [reflexivity|]). reflexivity.
  - intros other Hne. unfold profile_of. simpl.
    rewrite lookup_insert_ne by congruence.
    destruct (sessions w !! other) as [l'|] eqn:Hother; [|reflexivity].
    destruct (proj1 Hwf other l' Hother) as [q Hq].
    destruct (proj2 Hwf l' q Hq) as [Hlt _].
    rewrite lookup_insert_ne by lia. reflexivity.
Qed.

(** X3. [update_preferences] is a partial merge: a key of [prefs] takes
    the value [prefs] gives it, every other key keeps its value, the keys
    already there keep their order, and neither the memory bank nor any
    other object changes. *)
Theorem update_preferences_merges (self : nat) (prefs : list (string * value))
    (w : World) (p : TouristProfile) :
  heap w !! self = Some p ->
  NoDup (dict_keys prefs) ->
  exists w' p',
    update_preferences self prefs w = (Ok tt, w') /\
    heap w' !! self = Some p' /\
    (forall k,
       dict_get k (preferences p') =
         match dict_get k prefs with
         | Some v => Some v
         | None => dict_get k (preferences p)
         end) /\
    (exists added,
       dict_keys (preferences p') = (dict_keys (preferences p) ++ added)%list) /\
    memory_bank p' = memory_bank p /\
    user_id p' = user_id p /\
    (forall l, l <> self -> heap w' !! l = heap w !! l) /\
    sessions w' = sessions w.
Proof.
  intros Hp Hnd. eexists _, _.
  rewrite (update_preferences_at self prefs w p Hp).
  split; [reflexivity|]. simpl. split; [apply lookup_insert_eq|]. simpl.
  split; [intros k; apply dict_get_update; exact Hnd|].
  split; [apply dict_keys_update|].
  split; [reflexivity|]. split; [reflexivity|].
  split; [intros l Hl; apply lookup_insert_ne; congruence|reflexivity].
Qed.

(** X4. Two updates one after the other: the later one wins where both
    give a key, the earlier one where only it does, and a key neither
    mentions keeps the value it had. *)
Theorem update_preferences_twice (self : nat)
    (prefs1 prefs2 : list (string * value)) (w : World) (p : TouristProfile) :
  heap w !! self = Some p ->
  NoDup (dict_keys prefs1) ->
  NoDup (dict_keys prefs2) ->
  exists w1 w2 p2,
    update_preferences self prefs1 w = (Ok tt, w1) /\
    update_preferences self prefs2 w1 = (Ok tt, w2) /\
    heap w2 !! self = Some p2 /\
    (forall k,
       dict_get k (preferences p2) =
         match dict_get k prefs2 with
         | Some v => Some v
         | None =>
             match dict_get k prefs1 with
             | Some v => Some v
             | None => dict_get k (preferences p)
             end
         end) /\
    memory_bank p2 = memory_bank p.
Proof.
  intros Hp Hnd1 Hnd2. eexists _, _, _.
  rewrite (update_preferences_at self prefs1 w p Hp).
  split; [reflexivity|].
  erewrite update_preferences_at; [|simpl; apply lookup_insert_eq].
  split; [reflexivity|]. simpl. split; [apply lookup_insert_eq|]. simpl.
  split; [|reflexivity].
  intros k. rewrite (dict_get_update k prefs2 Hnd2).
  rewrite (dict_get_update k prefs1 Hnd1). reflexivity.
Qed.

Lemma empty_memory_bank_get category :
  default [] (dict_get category empty_memory_bank) = [].
Proof.
  simpl. repeat (destruct (String.eqb category _); [reflexivity|]). reflexivity.
Qed.

(** X5. What one reminder does to the store, in a well-formed world:
    the call returns normally; the tourist's profile exists afterwards
    (it is created with default preferences when it did not); its
    bookings end with a new record whose data are the activity, the
    location, the date and the time of the call with the status
    [reminder_set], and whose timestamp is the reading of the clock;
    the other categories and the preferences are as before. *)
Theorem make_booking_reminder_records
    (location activity date time uid : string) (w : World) :
  world_wf w ->
  exists envelope w' p' now,
    make_booking_reminder location activity date time uid w = (Ok envelope, w') /\
    world_wf w' /\
    profile_of w' uid = Some p' /\
    memory_of w' uid "bookings" =
      (memory_of w uid "bookings"
       ++ [ VDict [ ("data",
                      VDict [ ("activity", VStr activity);
                              ("location", VStr location);
                              ("date", VStr date);
                              ("time", VStr time);
                              ("status", VStr "reminder_set") ]);
                    ("timestamp", VStr (now_isoformat now)) ] ])%list /\
    (forall category, category <> "bookings" ->
       memory_of w' uid category = memory_of w uid category) /\
    preferences p' =
      match profile_of w uid with
      | Some p => preferences p
      | None => default_preferences
      end.
Proof.
  intros Hwf.
  destruct (get_or_create_session_wf uid w Hwf)
    as (l & w1 & p & Hgc & Hwf1 & Hs1 & Hp1 & _ & Hnew & Hold).
  assert (Hmwf : memory_wf p) by apply (proj2 Hwf1 l p Hp1).
  destruct (memory_wf_get "bookings" p Hmwf) as [old Hget];
    [simpl; auto 10|].
  eexists _, _, _, (ticks w1). unfold make_booking_reminder.
  rewrite (bind_ok _ _ _ _ _ Hgc).
  rewrite (bind_ok _ _ _ _ _ (save_to_memory_known l "bookings" _ w1 p old Hp1 Hget)).
  split; [reflexivity|]. split.
  { apply (world_wf_update w1 l p); [exact Hwf1|exact Hp1|].
    apply memory_wf_extend. exact Hmwf. }
  assert (Hafter : profile_of
            {| heap := <[l := extend_category "bookings"
                              [memory_entry
                                 (VDict [ ("activity", VStr activity);
                                          ("location", VStr location);
                                          ("date", VStr date);
                                          ("time", VStr time);
                                          ("status", VStr "reminder_set") ])
                                 (ticks w1)] p]> (heap w1);
               next_loc := next_loc w1; sessions := sessions w1;
               ticks := S (ticks w1) |} uid
          = Some (extend_category "bookings"
                    [memory_entry
                       (VDict [ ("activity", VStr activity);
                                ("location", VStr location);
                                ("date", VStr date);
                                ("time", VStr time);
                                ("status", VStr "reminder_set") ])
                       (ticks w1)] p)).
  { unfold profile_of. simpl. rewrite Hs1. apply lookup_insert_eq. }
  split; [exact Hafter|].
  unfold memory_of. rewrite Hafter. unfold extend_category. simpl.
  destruct (profile_of w uid) as [q|] eqn:Hq.
  - destruct (Hold q eq_refl) as [<- _].
    split; [rewrite dict_get_alter_eq, Hget; reflexivity|].
    split; [|reflexivity].
    intros category Hne. rewrite dict_get_alter_ne by congruence. reflexivity.
  - rewrite (Hnew eq_refl) in *.
    split.
    { rewrite dict_get_alter_eq, Hget. simpl in Hget. inversion Hget.
      reflexivity. }
    split; [|reflexivity].
    intros category Hne. rewrite dict_get_alter_ne by congruence.
    apply empty_memory_bank_get.
Qed.

(** ** Further properties of the lookup tools *)

(** The entry the safety check works with has a day score, a smaller
    night score, a list of alerts and a tip. *)
Lemma safety_info_shape (location : string) :
  exists day night alerts tip,
    default safety_default (dict_get location safety_db) =
      [ ("day", VInt day); ("night", VInt night);
        ("alerts", VList alerts); ("tip", VStr tip) ] /\
    3 <= night /\ night < day /\ day <= 9.
Proof.
  unfold safety_db, safety_default. simpl.
  repeat (destruct (String.eqb location _);
          [eexists _, _, _, _; split; [reflexivity|lia]|]).
  eexists _, _, _, _; split; [reflexivity|lia].
Qed.

Lemma check_safety_status_day_night (location : string) :
  exists day night alerts tip,
    3 <= night /\ night < day /\ day <= 9 /\
    check_safety_status location "day" =
      Ok [ ("location", VStr location);
           ("time_of_day", VStr "day");
           ("safety_score", VInt day);
           ("status",
             VStr (if 7 <=? day then "safe"
                   else if 5 <=? day then "caution" else "avoid"));
           ("alerts", VList alerts);
           ("recommendation", VStr tip);
           ("emergency_contacts", emergency_contacts) ] /\
    check_safety_status location "night" =
      Ok [ ("location", VStr location);
           ("time_of_day", VStr "night");
           ("safety_score", VInt night);
           ("status",
             VStr (if 7 <=? night then "safe"
                   else if 5 <=? night then "caution" else "avoid"));
           ("alerts", VList alerts);
           ("recommendation", VStr tip);
           ("emergency_contacts", emergency_contacts) ].
Proof.
  destruct (safety_info_shape location)
    as (day & night & alerts & tip & Hinfo & H1 & H2 & H3).
  exists day, night, alerts, tip.
  split; [exact H1|]. split; [exact H2|]. split; [exact H3|].
  unfold check_safety_status. rewrite Hinfo.
  split.
  - unfold subscript, ge_int. run_M.
    destruct (7 <=? day); [reflexivity|]. simpl.
    destruct (5 <=? day); reflexivity.
  - unfold subscript, ge_int. run_M.
    destruct (7 <=? night); [reflexivity|]. simpl.
    destruct (5 <=? night); reflexivity.
Qed.

Lemma check_safety_status_ok_inv (location time_of_day : string) envelope :
  check_safety_status location time_of_day = Ok envelope ->
  time_of_day = "day" \/ time_of_day = "night".
Proof.
  intros H.
  destruct (safety_info_shape location)
    as (day & night & alerts & tip & Hinfo & _).
  unfold check_safety_status in H. rewrite Hinfo in H.
  unfold subscript in H. simpl in H.
  destruct (String.eqb time_of_day "day") eqn:Eday;
    [left; apply String.eqb_eq; exact Eday|].
  destruct (String.eqb time_of_day "night") eqn:Enight;
    [right; apply String.eqb_eq; exact Enight|].
  exfalso.
  destruct (String.eqb time_of_day "alerts"); [discriminate H|].
  destruct (String.eqb time_of_day "tip"); discriminate H.
Qed.

(** X6. The safety check answers for the times of day ["day"] and
    ["night"] and for no other: any other value of [time_of_day] makes
    it raise, for every location, known or not. *)
Theorem check_safety_status_returns_iff (location time_of_day : string) :
  (exists envelope, check_safety_status location time_of_day = Ok envelope)
  <-> (time_of_day = "day" \/ time_of_day = "night").
Proof.
  split.
  - intros [envelope H].
    exact (check_safety_status_ok_inv location time_of_day envelope H).
  - destruct (check_safety_status_day_night location)
      as (day & night & alerts & tip & _ & _ & _ & Hday & Hnight).
    intros [-> | ->]; eauto.
Qed.

(** X7. Whenever the safety check returns, the score is an integer of
    the 1-10 scale, the status is ["safe"] from 7 up, ["caution"] for 5
    and 6 and ["avoid"] below 5, and the three emergency contacts are
    part of the answer. *)
Theorem check_safety_status_score_and_status
    (location time_of_day : string) (envelope : list (string * value)) :
  check_safety_status location time_of_day = Ok envelope ->
  exists score,
    dict_get "safety_score" envelope = Some (VInt score) /\
    1 <= score <= 10 /\
    dict_get "status" envelope =
      Some (VStr (if 7 <=? score then "safe"
                  else if 5 <=? score then "caution" else "avoid")) /\
    dict_get "emergency_contacts" envelope =
      Some (VDict [ ("police", VStr "999"); ("ambulance", VStr "112");
                    ("tourism_hotline", VStr "+234 700 000 0000") ]) /\
    dict_get "location" envelope = Some (VStr location) /\
    dict_get "time_of_day" envelope = Some (VStr time_of_day).
Proof.
  intros H.
  pose proof (check_safety_status_ok_inv location time_of_day envelope H)
    as Htod.
  destruct (check_safety_status_day_night location)
    as (day & night & alerts & tip & H1 & H2 & H3 & Hday & Hnight).
  destruct Htod as [-> | ->].
  - rewrite Hday in H. inversion H; subst. exists day.
    repeat split; try reflexivity; lia.
  - rewrite Hnight in H. inversion H; subst. exists night.
    repeat split; try reflexivity; lia.
Qed.

(** X8. No location is rated safer by night than by day: the night
    score of every location, the default included, is below its day
    score. *)
Theorem check_safety_status_night_below_day (location : string)
    (by_day by_night : list (string * value)) :
  check_safety_status location "day" = Ok by_day ->
  check_safety_status location "night" = Ok by_night ->
  exists day night,
    dict_get "safety_score" by_day = Some (VInt day) /\
    dict_get "safety_score" by_night = Some (VInt night) /\
    night < day /\
    dict_get "alerts" by_night = dict_get "alerts" by_day /\
    dict_get "recommendation" by_night = dict_get "recommendation" by_day.
Proof.
  destruct (check_safety_status_day_night location)
    as (day & night & alerts & tip & H1 & H2 & H3 & Hday & Hnight).
  rewrite Hday, Hnight. intros Hd Hn. inversion Hd; inversion Hn; subst.
  exists day, night. repeat split; try reflexivity. exact H2.
Qed.



(** X10. The local tips never raise and echo the category; the list of
    tips is empty exactly when the category is none of transport, food,
    culture, safety and events. *)
Theorem get_local_tips_known_iff (category : string) :
  exists items,
    get_local_tips category =
      [ ("category", VStr category);
        ("tips", VList items);
        ("last_updated", VStr "2025-11-16");
        ("source", VStr "Local Lagos Tourism Guide") ] /\
    (items = [] <->
     ~ In category ["transport"; "food"; "culture"; "safety"; "events"]).
Proof.
  unfold get_local_tips, tips. simpl.
  destruct (String.eqb category "transport") eqn:E1;
    [apply String.eqb_eq in E1; eexists; split; [reflexivity|];
     split; [discriminate|intros H; exfalso; apply H; simpl; auto]|].
  destruct (String.eqb category "food") eqn:E2;
    [apply String.eqb_eq in E2; eexists; split; [reflexivity|];
     split; [discriminate|intros H; exfalso; apply H; simpl; auto]|].
  destruct (String.eqb category "culture") eqn:E3;
    [apply String.eqb_eq in E3; eexists; split; [reflexivity|];
     split; [discriminate|intros H; exfalso; apply H; simpl; auto]|].
  destruct (String.eqb category "safety") eqn:E4;
    [apply String.eqb_eq in E4; eexists; split; [reflexivity|];
     split; [discriminate|intros H; exfalso; apply H; simpl; auto 10]|].
  destruct (String.eqb category "events") eqn:E5;
    [apply String.eqb_eq in E5; eexists; split; [reflexivity|];
     split; [discriminate|intros H; exfalso; apply H; simpl; auto 10]|].
  apply String.eqb_neq in E1, E2, E3, E4, E5.
  exists []. split; [reflexivity|]. split; [|reflexivity].
  intros _ [H|[H|[H|[H|[H|[]]]]]]; congruence.
Qed.

(** ** Further properties of the conversation loop *)











(** X12. The command [quit], in any letter case and with blanks around
    it, ends the loop at once: the farewell is printed, the store is not
    touched, and the turns that would follow are not read. *)
Theorem run_loop_quit (d : Driver) (t : Turn) (rest : list Turn) :
  lower (strip (line t)) = "quit" ->
  run_loop d (t :: rest) =
    Break (mkDriver (world d)
             (stdout d ++ [tourist_id d +:+ ": "] ++ [farewell])%list
             (tourist_id d) (orchestrator d) (session d)
             (conversation_history d)).
Proof.
  intros H. simpl. unfold loop_body.
  destruct (strip (line t)) as [|c r] eqn:E; [discriminate H|].
  rewrite H. simpl. unfold print. simpl. rewrite <- app_assoc. reflexivity.
Qed.

(** X14. The command [clear] replaces the profile and the orchestrator
    but not the driver's own [conversation_history]: the messages of
    the earlier turns stay in that list while the chat history of the
    new profile is empty. *)
Theorem clear_keeps_conversation_history (d : Driver) (t : Turn) :
  lower (strip (line t)) = "clear" ->
  exists d',
    loop_body d t = Continue d' /\
    conversation_history d' = conversation_history d /\
    memory_of (world d') (tourist_id d) "chat_history" = [] /\
    session d' = next_loc (world d) /\
    stdout d' =
      (stdout d ++ [tourist_id d +:+ ": "; "✨ Session cleared. Let's start fresh!
"])%list.
Proof.
  intros H. eexists. split.
  { rewrite (loop_body_clear d t H). apply clear_session_eq. }
  simpl. split; [reflexivity|]. split.
  - unfold memory_of, profile_of. simpl. rewrite !lookup_insert_eq. reflexivity.
  - split; [reflexivity|]. rewrite <- app_assoc. reflexivity.
Qed.

Lemma driver_wf_chat d :
  driver_wf d ->
  exists p old,
    heap (world d) !! session d = Some p /\
    dict_get "chat_history" (memory_bank p) = Some old.
Proof.
  intros [Hwf Hs]. destruct (proj1 Hwf _ _ Hs) as [p Hp].
  destruct (memory_wf_get "chat_history" p (proj2 (proj2 Hwf _ _ Hp)))
    as [old Hold]; [simpl; auto 10|].
  eauto.
Qed.

(** X15. What a turn adds to the driver's [conversation_history]: the
    utterance and the reply when the orchestrator returned a text, the
    utterance alone when the generation or the extraction of the text
    raised; in that second case the store is unchanged, so the list and
    the chat history of the profile no longer agree. *)
Theorem turn_conversation_history (d : Driver) (t : Turn) :
  driver_wf d ->
  utterance (line t) ->
  exists d',
    loop_body d t = Continue d' /\
    match response ← generation t; extract_text response with
    | Ok reply =>
        conversation_history d' =
          (conversation_history d
           ++ [ chat_message "user" (strip (line t));
                chat_message "agent" reply ])%list
    | Raise e =>
        conversation_history d' =
          (conversation_history d
           ++ [chat_message "user" (strip (line t))])%list /\
        world d' = world d
    end.
Proof.
  intros Hwf Hline. eexists. split; [apply (loop_body_utterance d t Hline)|].
  destruct (driver_wf_chat d Hwf) as (p & old & Hp & Hold).
  unfold process_turn.
  destruct (generation t) as [response|e] eqn:Hgen.
  - change (response0 ← Ok response; extract_text response0)
      with (extract_text response).
    destruct (extract_text response) as [reply|e] eqn:Hex.
    + erewrite try_block_ok; [|reflexivity|exact Hex|exact Hp|exact Hold].
      simpl. rewrite <- app_assoc. reflexivity.
    + unfold try_block.
      change (response0 ← Ok response; extract_text response0)
        with (extract_text response).
      rewrite Hex. simpl. auto.
  - unfold try_block. simpl. auto.
Qed.

(** ** States the program can reach *)

Lemma startup_initial name_line :
  exists d,
    startup name_line initial_world = Continue d /\
    driver_inv d /\
    tourist_id d = start_id name_line /\
    conversation_history d = [].
Proof.
  unfold startup, start_id.
  destruct (String.eqb (strip name_line) "") eqn:E.
  - set (tid := "Tourist-" +:+ now_timestamp 0).
    set (w0 := {| heap := ∅; next_loc := 0; sessions := ∅; ticks := 1 |}).
    assert (Hclock : (now ← datetime_now; mret ("Tourist-" +:+ now_timestamp now))
                       initial_world = (Ok tid, w0)) by reflexivity.
    assert (Hnone : sessions w0 !! tid = None) by apply lookup_empty.
    destruct (session_created_lookup tid w0) as [Hs Hp].
    cbv zeta.
    rewrite (bind_ok _ _ _ _ _ Hclock).
    rewrite (bind_ok _ _ _ _ _ (create_orchestrator_agent_new tid w0 Hnone)).
    rewrite (bind_ok _ _ _ _ _ (get_or_create_session_found tid _ _ Hs)).
    eexists. split; [reflexivity|]. split; [|split; reflexivity].
    exists 1%nat, []. simpl.
    split; [apply insert_empty|]. split; [exact Hp|]. split; [reflexivity|].
    discriminate.
  - set (tid := strip name_line).
    assert (Hname : (mret tid : M string) initial_world = (Ok tid, initial_world))
      by reflexivity.
    assert (Hnone : sessions initial_world !! tid = None) by apply lookup_empty.
    destruct (session_created_lookup tid initial_world) as [Hs Hp].
    cbv zeta.
    rewrite (bind_ok _ _ _ _ _ Hname).
    rewrite (bind_ok _ _ _ _ _ (create_orchestrator_agent_new tid _ Hnone)).
    rewrite (bind_ok _ _ _ _ _ (get_or_create_session_found tid _ _ Hs)).
    eexists. split; [reflexivity|]. split; [|split; reflexivity].
    exists 0%nat, []. simpl.
    split; [apply insert_empty|]. split; [exact Hp|]. split; [reflexivity|].
    apply String.eqb_neq. exact E.
Qed.

Lemma profile_after_chat_extend uid now chat u a :
  extend_category "chat_history" [chat_message "user" u; chat_message "agent" a]
    (profile_after_chat uid now chat)
  = profile_after_chat uid now (chat ++ [(u, a)]).
Proof.
  unfold extend_category, profile_after_chat, set_memory_bank. simpl.
  rewrite flat_map_app. reflexivity.
Qed.

Lemma driver_inv_process_turn d user_input generation :
  driver_inv d -> driver_inv (process_turn d user_input generation).
Proof.
  intros (now & chat & Hs & Hp & Horch & Htid). unfold process_turn.
  destruct (try_block _ _ _) as [[u|e] d1] eqn:Htry.
  - unfold try_block in Htry.
    destruct (response ← generation; extract_text response) as [reply|e0];
      [|discriminate].
    simpl in Htry.
    rewrite (extend_chat_history_ok _ _ _ _ _ Hp eq_refl) in Htry.
    inversion Htry; subst; clear Htry.
    exists now, (chat ++ [(user_input, reply)])%list. simpl.
    split; [exact Hs|]. split; [|split; assumption].
    rewrite lookup_insert_eq, profile_after_chat_extend. reflexivity.
  - destruct (try_block_raise _ _ _ _ _ Htry) as (Hw & _ & Ht & Ho & Hses).
    simpl in *. exists now, chat. unfold handle_exception. simpl.
    rewrite Hw, Ht, Ho, Hses. auto.
Qed.

Lemma driver_inv_loop_body d t d' :
  driver_inv d ->
  final_driver (loop_body d t) = Some d' ->
  driver_inv d' /\ tourist_id d' = tourist_id d.
Proof.
  intros Hinv. unfold loop_body.
  destruct (String.eqb (strip (line t)) "").
  { intros H. inversion H; subst. split; [exact Hinv|reflexivity]. }
  destruct (String.eqb (lower (strip (line t))) "quit").
  { intros H. inversion H; subst. split; [exact Hinv|reflexivity]. }
  destruct (String.eqb (lower (strip (line t))) "clear").
  - rewrite clear_session_eq. intros H. inversion H; subst; clear H.
    split; [|reflexivity].
    destruct Hinv as (now & chat & Hs & Hp & Horch & Htid). simpl in *.
    exists (ticks (world d)), []. simpl.
    split.
    { rewrite Hs, delete_singleton_eq. apply insert_empty. }
    split; [apply lookup_insert_eq|]. split; [reflexivity|exact Htid].
  - intros H. inversion H; subst; clear H. split.
    + apply (driver_inv_process_turn (print (tourist_id d +:+ ": ") d)).
      exact Hinv.
    + unfold process_turn.
      destruct (try_block _ _ _) as [[u|e] d1] eqn:Htry.
      * unfold try_block in Htry.
        destruct (response ← generation t; extract_text response);
          [|discriminate].
        destruct (extend_chat_history _ _ _) as [[u'|e1] w1]; [|discriminate].
        inversion Htry; subst. reflexivity.
      * destruct (try_block_raise _ _ _ _ _ Htry) as (_ & _ & Ht & _).
        simpl. exact Ht.
Qed.

Lemma loop_body_outcome d t :
  driver_inv d -> exists d', final_driver (loop_body d t) = Some d'.
Proof.
  intros _. unfold loop_body.
  destruct (String.eqb (strip (line t)) ""); [eexists; reflexivity|].
  destruct (String.eqb (lower (strip (line t))) "quit"); [eexists; reflexivity|].
  destruct (String.eqb (lower (strip (line t))) "clear");
    [rewrite clear_session_eq|]; eexists; reflexivity.
Qed.

Lemma run_loop_inv turns : forall d,
  driver_inv d ->
  exists d', final_driver (run_loop d turns) = Some d' /\
             driver_inv d' /\ tourist_id d' = tourist_id d.
Proof.
  induction turns as [|t rest IH]; intros d Hinv; simpl.
  - exists d. auto.
  - destruct (loop_body_outcome d t Hinv) as [d1 Hd1].
    destruct (driver_inv_loop_body d t d1 Hinv Hd1) as [Hinv1 Htid1].
    destruct (loop_body d t) as [d2|d2|e d2]; simpl in Hd1;
      inversion Hd1; subst.
    + destruct (IH d1 Hinv1) as (d' & Hrun & Hinv' & Htid').
      exists d'. rewrite Htid'. auto.
    + exists d1. auto.
Qed.

Lemma run_tourism_advisor_inv name_line turns :
  exists d,
    final_driver (run_tourism_advisor name_line turns) = Some d /\
    driver_inv d /\ tourist_id d = start_id name_line.
Proof.
  unfold run_tourism_advisor.
  destruct (startup_initial name_line) as (d0 & Hstart & Hinv0 & Htid0 & _).
  rewrite Hstart.
  destruct (run_loop_inv turns d0 Hinv0) as (d & Hrun & Hinv & Htid).
  exists d. rewrite Htid. auto.
Qed.


(** X17. At every point of a run the store holds exactly one session,
    under the tourist id fixed at the start (the stripped name, or the
    generated id when the name is empty; never the empty string), and
    the driver's variable [session] is that session's object. *)
Theorem reachable_single_session (name_line : string) (turns : list Turn)
    (d : Driver) :
  final_driver (run_tourism_advisor name_line turns) = Some d ->
  tourist_id d = start_id name_line /\
  tourist_id d <> "" /\
  sessions (world d) = {[ tourist_id d := session d ]} /\
  get_or_create_session (tourist_id d) (world d) = (Ok (session d), world d).
Proof.
  intros H.
  destruct (run_tourism_advisor_inv name_line turns)
    as (d0 & Hfinal & (now & chat & Hs & Hp & Horch & Htid) & Hid).
  rewrite Hfinal in H. inversion H; subst d0; clear H.
  split; [exact Hid|]. split; [exact Htid|]. split; [exact Hs|].
  apply get_or_create_session_found. rewrite Hs. apply lookup_singleton_eq.
Qed.

(** X18. At every point of a run the instructions of the orchestrator
    carry the context of a profile as the constructor leaves it: the
    tourist id, the default preferences and five empty lists of recent
    memory.  No turn ever changes them. *)
Theorem reachable_orchestrator_context (name_line : string)
    (turns : list Turn) (d : Driver) :
  final_driver (run_tourism_advisor name_line turns) = Some d ->
  instructions_of (orchestrator d) =
    orchestrator_instructions
      (context_template (tourist_id d)
         (json_dumps
            (VDict [ ("budget", VStr "moderate"); ("interests", VList []);
                     ("duration", VInt 0); ("dietary_restrictions", VList []);
                     ("mobility_concerns", VList []) ]))
         (json_dumps
            (VDict [ ("visited_places", VList []);
                     ("saved_restaurants", VList []);
                     ("bookings", VList []);
                     ("safety_alerts", VList []);
                     ("chat_history", VList []) ]))).
Proof.
  intros H.
  destruct (run_tourism_advisor_inv name_line turns)
    as (d0 & Hfinal & (now & chat & Hs & Hp & Horch & Htid) & Hid).
  rewrite Hfinal in H. inversion H; subst d0; clear H.
  rewrite Horch. reflexivity.
Qed.

(** X19. At every point of a run the tourist's profile has the default
    preferences, four empty categories and a chat history made of whole
    exchanges, a user record followed by an agent record each: the loop
    never updates preferences and writes to no other category. *)
Theorem reachable_profile_shape (name_line : string) (turns : list Turn)
    (d : Driver) :
  final_driver (run_tourism_advisor name_line turns) = Some d ->
  exists p chat,
    profile_of (world d) (tourist_id d) = Some p /\
    preferences p = default_preferences /\
    memory_of (world d) (tourist_id d) "chat_history" =
      flat_map exchange_records chat /\
    length (memory_of (world d) (tourist_id d) "chat_history") =
      (2 * length chat)%nat /\
    (forall category, category <> "chat_history" ->
       memory_of (world d) (tourist_id d) category = []).
Proof.
  intros H.
  destruct (run_tourism_advisor_inv name_line turns)
    as (d0 & Hfinal & (now & chat & Hs & Hp & Horch & Htid) & Hid).
  rewrite Hfinal in H. inversion H; subst d0; clear H.
  assert (Hprofile : profile_of (world d) (tourist_id d)
                     = Some (profile_after_chat (tourist_id d) now chat)).
  { unfold profile_of. rewrite Hs, lookup_singleton_eq. exact Hp. }
  exists (profile_after_chat (tourist_id d) now chat), chat.
  split; [exact Hprofile|]. split; [reflexivity|].
  unfold memory_of. rewrite Hprofile. simpl.
  split; [reflexivity|]. split.
  - clear. induction chat as [|ua chat IH]; simpl; [reflexivity|].
    rewrite IH. lia.
  - intros category Hne. apply String.eqb_neq in Hne. rewrite Hne. clear Hne.
    repeat match goal with
           | |- context [String.eqb category ?k] =>
               destruct (String.eqb category k); [reflexivity|]
           end.
    reflexivity.
Qed.

Lemma loop_body_extends d t d' :
  driver_wf d ->
  not_clear t ->
  final_driver (loop_body d t) = Some d' ->
  driver_wf d' /\ tourist_id d' = tourist_id d /\
  forall category, exists more,
    memory_of (world d') (tourist_id d) category =
      (memory_of (world d) (tourist_id d) category ++ more)%list.
Proof.
  intros Hwf Hnc. unfold loop_body.
  assert (Hsame : forall s,
            driver_wf (print s d) /\ tourist_id (print s d) = tourist_id d /\
            forall category, exists more,
              memory_of (world (print s d)) (tourist_id d) category =
                (memory_of (world d) (tourist_id d) category ++ more)%list).
  { intros s0. split; [exact Hwf|]. split; [reflexivity|].
    intros category. exists []. rewrite app_nil_r. reflexivity. }
  destruct (String.eqb (strip (line t)) "").
  { intros H. inversion H; subst. apply Hsame. }
  destruct (String.eqb (lower (strip (line t))) "quit").
  { intros H. inversion H; subst.
    destruct (Hsame (tourist_id d +:+ ": ")) as (H1 & H2 & H3).
    split; [exact H1|]. split; [reflexivity|exact H3]. }
  destruct (String.eqb (lower (strip (line t))) "clear") eqn:Hc.
  { apply String.eqb_eq in Hc. contradiction. }
  intros H. inversion H; subst; clear H.
  split; [apply driver_wf_process_turn; exact Hwf|].
  destruct (driver_wf_chat d Hwf) as (p & old & Hp & Hold).
  destruct Hwf as [Hwf Hs].
  unfold process_turn.
  destruct (try_block _ _ _) as [[u|e] d1] eqn:Htry.
  - unfold try_block in Htry.
    destruct (response ← generation t; extract_text response) as [reply|e0];
      [|discriminate].
    simpl in Htry.
    rewrite (extend_chat_history_ok _ _ _ p old Hp Hold) in Htry.
    inversion Htry; subst; clear Htry. simpl.
    split; [reflexivity|]. intros category.
    unfold memory_of, profile_of. simpl. rewrite Hs, Hp, lookup_insert_eq.
    unfold extend_category. simpl.
    destruct (string_dec category "chat_history") as [->|Hne].
    + rewrite dict_get_alter_eq, Hold. simpl. eauto.
    + rewrite dict_get_alter_ne by congruence. exists [].
      rewrite app_nil_r. reflexivity.
  - destruct (try_block_raise _ _ _ _ _ Htry) as (Hw & _ & Ht & _).
    simpl in *. unfold handle_exception. simpl. rewrite Hw.
    split; [exact Ht|]. intros category. exists [].
    rewrite app_nil_r. reflexivity.
Qed.

(** X20. Between two [clear] commands the memory of the tourist only
    grows: after any number of turns none of which is [clear], every
    category of the profile is what it was followed by what the turns
    appended.  Nothing is removed and nothing is edited. *)
Theorem run_loop_memory_grows (turns : list Turn) (d d' : Driver) :
  driver_wf d ->
  Forall not_clear turns ->
  final_driver (run_loop d turns) = Some d' ->
  tourist_id d' = tourist_id d /\
  forall category, exists more,
    memory_of (world d') (tourist_id d) category =
      (memory_of (world d) (tourist_id d) category ++ more)%list.
Proof.
  revert d. induction turns as [|t rest IH]; intros d Hwf Hall; simpl.
  - intros H. inversion H; subst. split; [reflexivity|].
    intros category. exists []. rewrite app_nil_r. reflexivity.
  - inversion Hall as [|? ? Hnc Hrest]; subst.
    destruct (loop_body d t) as [d1|d1|e d1] eqn:Hbody; simpl;
      [| |discriminate].
    + destruct (loop_body_extends d t d1 Hwf Hnc) as (Hwf1 & Htid1 & Hgrow1);
        [rewrite Hbody; reflexivity|].
      intros H. destruct (IH d1 Hwf1 Hrest H) as (Htid' & Hgrow').
      split; [congruence|]. intros category.
      destruct (Hgrow1 category) as [more1 H1].
      destruct (Hgrow' category) as [more2 H2].
      rewrite Htid1 in H2. exists (more1 ++ more2)%list.
      rewrite H2, H1, app_assoc. reflexivity.
    + intros H. inversion H; subst.
      destruct (loop_body_extends d t d' Hwf Hnc) as (_ & Htid1 & Hgrow1);
        [rewrite Hbody; reflexivity|].
      auto.
Qed.

(** ** Further properties of the memory and of the context *)


Lemma save_each_known items : forall self category w p old,
  heap w !! self = Some p ->
  dict_get category (memory_bank p) = Some old ->
  exists w' p',
    save_each self category items w = (Ok tt, w') /\
    heap w' !! self = Some p' /\
    dict_get category (memory_bank p') =
      Some (old ++ entries_from (ticks w) items)%list /\
    (forall c, c <> category ->
               dict_get c (memory_bank p') = dict_get c (memory_bank p)) /\
    preferences p' = preferences p /\
    ticks w' = (ticks w + length items)%nat.
Proof.
  induction items as [|item rest IH]; intros self category w p old Hp Hold.
  - exists w, p. simpl. rewrite app_nil_r, Nat.add_0_r.
    repeat split; auto.
  - simpl save_each.
    rewrite (bind_ok _ _ _ _ _ (save_to_memory_known self category item w p old Hp Hold)).
    edestruct (IH self category
                 {| heap := <[self := extend_category category
                                        [memory_entry item (ticks w)] p]> (heap w);
                    next_loc := next_loc w; sessions := sessions w;
                    ticks := S (ticks w) |}
                 (extend_category category [memory_entry item (ticks w)] p)
                 (old ++ [memory_entry item (ticks w)])%list)
      as (w' & p' & Hrun & Hp' & Hcat & Hother & Hprefs & Hticks).
    { simpl. apply lookup_insert_eq. }
    { unfold extend_category. simpl. rewrite dict_get_alter_eq, Hold. reflexivity. }
    exists w', p'. split; [exact Hrun|]. split; [exact Hp'|].
    split; [rewrite Hcat; simpl; rewrite <- app_assoc; reflexivity|].
    split.
    + intros c Hc. rewrite (Hother c Hc). unfold extend_category. simpl.
      apply dict_get_alter_ne. congruence.
    + split; [rewrite Hprefs; reflexivity|]. rewrite Hticks. simpl. lia.
Qed.

(** X22. Saving a list of items to one category, one call after the
    other: the category ends with one record per item, in the order of
    the calls and with successive readings of the clock; the projection
    of [to_dict] then shows the last five records of the category, the
    earlier ones having dropped out of the context. *)
Theorem save_each_then_to_dict (self : nat) (category : string)
    (items : list value) (w : World) (p : TouristProfile) (old : list value) :
  heap w !! self = Some p ->
  dict_get category (memory_bank p) = Some old ->
  exists w' projection recent_memory,
    save_each self category items w = (Ok tt, w') /\
    to_dict self w' = (Ok projection, w') /\
    dict_get "recent_memory" projection = Some (VDict recent_memory) /\
    dict_get category recent_memory =
      Some (VList (slice_from (-5)
                     (old ++ entries_from (ticks w) items)%list)) /\
    dict_get "preferences" projection = Some (VDict (preferences p)).
Proof.
  intros Hp Hold.
  destruct (save_each_known items self category w p old Hp Hold)
    as (w' & p' & Hrun & Hp' & Hcat & _ & Hprefs & _).
  exists w', (profile_dict p'),
    (map (fun kv => (fst kv, VList (slice_from (-5) (snd kv)))) (memory_bank p')).
  split; [exact Hrun|]. split; [apply to_dict_at; exact Hp'|].
  split; [reflexivity|]. split.
  - rewrite (dict_get_map_values (fun v => VList (slice_from (-5) v))).
    rewrite Hcat. reflexivity.
  - simpl. rewrite Hprefs. reflexivity.
Qed.

(** X23. Profiles of different tourists are independent: in a
    well-formed world where no two ids share an object, a reminder for
    one tourist leaves the profile of every other tourist exactly as it
    was, and ids still share no object afterwards. *)
Theorem make_booking_reminder_isolated
    (location activity date time uid other : string) (w : World) :
  world_wf w ->
  sessions_apart w ->
  other <> uid ->
  exists envelope w',
    make_booking_reminder location activity date time uid w = (Ok envelope, w') /\
    profile_of w' other = profile_of w other /\
    sessions_apart w'.
Proof.
  intros Hwf Hapart Hne.
  destruct (sessions w !! uid) as [l|] eqn:Hs.
  - destruct (proj1 Hwf uid l Hs) as [p Hp].
    destruct (memory_wf_get "bookings" p (proj2 (proj2 Hwf l p Hp)))
      as [old Hold]; [simpl; auto 10|].
    eexists _, _. unfold make_booking_reminder.
    rewrite (bind_ok _ _ _ _ _ (get_or_create_session_found uid l w Hs)).
    rewrite (bind_ok _ _ _ _ _ (save_to_memory_known l "bookings" _ w p old Hp Hold)).
    split; [reflexivity|]. split; [|exact Hapart].
    unfold profile_of. simpl.
    destruct (sessions w !! other) as [l'|] eqn:Hother; [|reflexivity].
    apply lookup_insert_ne. intros ->. apply Hne.
    exact (Hapart other uid l' Hother Hs).
  - pose proof (session_created_lookup uid w) as [Hs1 Hp1].
    assert (Hold : dict_get "bookings" (memory_bank (fresh_profile uid (ticks w)))
                   = Some []) by reflexivity.
    eexists _, _. unfold make_booking_reminder.
    rewrite (bind_ok _ _ _ _ _ (get_or_create_session_new uid w Hs)).
    fold (session_created uid w).
    rewrite (bind_ok _ _ _ _ _
               (save_to_memory_known (next_loc w) "bookings" _
                  (session_created uid w) _ [] Hp1 Hold)).
    split; [reflexivity|]. split.
    + unfold profile_of. simpl. rewrite lookup_insert_ne by congruence.
      destruct (sessions w !! other) as [l'|] eqn:Hother; [|reflexivity].
      destruct (proj1 Hwf other l' Hother) as [q Hq].
      destruct (proj2 Hwf l' q Hq) as [Hlt _].
      rewrite !lookup_insert_ne by lia. reflexivity.
    + intros u1 u2 l0. simpl.
      destruct (decide (uid = u1)) as [<-|H1];
        destruct (decide (uid = u2)) as [<-|H2]; try reflexivity.
      * rewrite lookup_insert_eq, lookup_insert_ne by exact H2.
        intros Hl Hu2. inversion Hl; subst l0.
        destruct (proj1 Hwf u2 _ Hu2) as [q Hq].
        destruct (proj2 Hwf _ q Hq) as [Hlt _]. lia.
      * rewrite lookup_insert_eq, lookup_insert_ne by exact H1.
        intros Hu1 Hl. inversion Hl; subst l0.
        destruct (proj1 Hwf u1 _ Hu1) as [q Hq].
        destruct (proj2 Hwf _ q Hq) as [Hlt _]. lia.
      * rewrite !lookup_insert_ne by assumption. apply Hapart.
Qed.

End Program.

(** ** Examples

    The theorems above at concrete inputs, under the example
    environment. *)

(** The state in which the loop first waits for input when the tourist
    has given the name T1. *)
Definition example_driver : Driver :=
  match run_tourism_advisor example_render example_timestamp example_render
          "T1" [] with
  | Continue d | Break d | Propagate _ d => d
  end.

Lemma example_driver_wf : driver_wf example_driver.
Proof.
  apply (run_tourism_advisor_wf example_render example_timestamp example_render
           "T1" []).
  reflexivity.
Qed.

Lemma C2_miss_answers_witness :
  key_absent (AttractionSearch "Mushin" "beach" "budget") = true /\
  exists envelope w',
    call example_isoformat (AttractionSearch "Mushin" "beach" "budget")
         initial_world = (Ok envelope, w') /\
    empty_success (AttractionSearch "Mushin" "beach" "budget") envelope /\
    dict_get "count" envelope = Some (VInt 0).
Proof.
  split; [reflexivity|].
  apply (C2_miss_answers example_isoformat
           (AttractionSearch "Mushin" "beach" "budget") initial_world).
  reflexivity.
Defined.


Lemma C4_clear_gives_fresh_profile_witness :
  lower (strip "  CLEAR ") = "clear" /\
  exists d' p,
    loop_body example_render example_render example_driver
      {| line := "  CLEAR "; generation := Raise IndexError |} = Continue d' /\
    profile_of (world d') "T1" = Some p /\
    p = fresh_profile "T1" 1.
Proof.
  split; [reflexivity|].
  destruct (C4_clear_gives_fresh_profile example_render example_render
              example_driver
              {| line := "  CLEAR "; generation := Raise IndexError |}
              eq_refl)
    as (d' & p & Hbody & _ & _ & Hprofile & _ & Hfresh & _).
  exists d', p. split; [exact Hbody|]. split; [exact Hprofile|exact Hfresh].
Defined.

Lemma C5_reminder_twice_witness :
  exists envelope1 w1 envelope2 w2,
    make_booking_reminder example_isoformat "VI" "dinner" "2025-12-24" "19:30"
      "T1" initial_world = (Ok envelope1, w1) /\
    make_booking_reminder example_isoformat "VI" "dinner" "2025-12-24" "19:30"
      "T1" w1 = (Ok envelope2, w2) /\
    dict_get "reminder_id" envelope1 = Some (VStr "REM-T1-2025-12-24-dinner") /\
    dict_get "reminder_id" envelope2 = dict_get "reminder_id" envelope1 /\
    length (memory_of w2 "T1" "bookings") =
      (length (memory_of initial_world "T1" "bookings") + 2)%nat.
Proof.
  destruct (C5_reminder_twice example_isoformat "VI" "VI" "dinner" "2025-12-24"
              "19:30" "T1" initial_world world_wf_initial)
    as (e1 & w1 & e2 & w2 & _ & _ & H1 & H2 & H3 & H4 & _ & H6).
  exists e1, w1, e2, w2. repeat split; assumption.
Defined.

Lemma C6_to_dict_last_five_witness :
  heap example_world !! 0%nat = Some example_profile /\
  dict_get "visited_places" (memory_bank example_profile) =
    Some [ VStr "a"; VStr "b"; VStr "c"; VStr "d"; VStr "e"; VStr "f";
           VStr "g" ] /\
  exists projection recent_memory recent older,
    to_dict 0 example_world = (Ok projection, example_world) /\
    dict_get "recent_memory" projection = Some (VDict recent_memory) /\
    dict_get "visited_places" recent_memory = Some (VList recent) /\
    [ VStr "a"; VStr "b"; VStr "c"; VStr "d"; VStr "e"; VStr "f"; VStr "g" ]
      = (older ++ recent)%list /\
    (length recent <= 5)%nat /\
    length recent = Nat.min 5 7.
Proof.
  split; [reflexivity|]. split; [reflexivity|].
  apply (C6_to_dict_last_five 0 example_world example_profile "visited_places");
    reflexivity.
Defined.

Example to_dict_keeps_last_five :
  to_dict 0 example_world =
    (Ok [ ("user_id", VStr "T1");
          ("preferences", VDict default_preferences);
          ("recent_memory",
            VDict [ ("visited_places",
                      VList [VStr "c"; VStr "d"; VStr "e"; VStr "f"; VStr "g"]);
                    ("saved_restaurants", VList []);
                    ("bookings", VList []);
                    ("safety_alerts", VList []);
                    ("chat_history", VList []) ]) ],
     example_world).
Proof. reflexivity. Qed.

Lemma C7_save_to_memory_witness :
  heap example_world !! 0%nat = Some example_profile /\
  memory_wf example_profile /\
  (exists w' p',
     save_to_memory example_isoformat 0 "bookings" (VStr "tour") example_world
       = (Ok tt, w') /\
     heap w' !! 0%nat = Some p' /\
     dict_get "bookings" (memory_bank p') =
       Some [VDict [("data", VStr "tour"); ("timestamp", VStr "2025-12-01T10:00:1")]]) /\
  save_to_memory example_isoformat 0 "favourites" (VStr "tour") example_world
    = (Ok tt, example_world).
Proof.
  destruct (C7_save_to_memory example_isoformat 0 "bookings" (VStr "tour")
              example_world example_profile eq_refl eq_refl) as [Hknown _].
  destruct (C7_save_to_memory example_isoformat 0 "favourites" (VStr "tour")
              example_world example_profile eq_refl eq_refl) as [_ Hother].
  split; [reflexivity|]. split; [reflexivity|]. split.
  - destruct Hknown as (old & w' & p' & Hold & Hcall & Hp' & Hnew & _);
      [simpl; auto 10|].
    exists w', p'. split; [exact Hcall|]. split; [exact Hp'|].
    vm_compute in Hold. inversion Hold; subst. exact Hnew.
  - apply Hother. vm_compute. intuition discriminate.
Defined.


Lemma C10_unknown_location_default_witness :
  dict_get "safety_score" (match check_safety_status "Mushin" "day" with
                           | Ok envelope => envelope
                           | Raise _ => []
                           end) = Some (VInt 5) /\
  dict_get "status" (match check_safety_status "Mushin" "night" with
                     | Ok envelope => envelope
                     | Raise _ => []
                     end) = Some (VStr "avoid").
Proof.
  destruct (C10_unknown_location_default "Mushin") as [Hday Hnight];
    try discriminate.
  rewrite Hday, Hnight. split; reflexivity.
Defined.

(** ** Examples for the further properties *)

(** The state after T1 has asked one question and received the answer. *)
Definition example_turn : Turn :=
  {| line := "  Is Surulere safe at night? ";
     generation := Ok (response_with "Take a registered taxi.") |}.

Definition example_after_turn : Driver :=
  match run_tourism_advisor example_render example_timestamp example_render
          "T1" [example_turn] with
  | Continue d | Break d | Propagate _ d => d
  end.

Lemma sessions_apart_initial : sessions_apart initial_world.
Proof.
  intros uid1 uid2 l H. simpl in H. rewrite lookup_empty in H. discriminate.
Qed.

Lemma get_or_create_session_first_contact_witness :
  exists l w1,
    get_or_create_session "T1" initial_world = (Ok l, w1) /\
    world_wf w1 /\
    profile_of w1 "T1" = Some (fresh_profile "T1" 0) /\
    (forall category, memory_of w1 "T1" category = []) /\
    (forall other, other <> "T1" ->
       profile_of w1 other = profile_of initial_world other).
Proof.
  apply (get_or_create_session_first_contact "T1" initial_world).
  - exact world_wf_initial.
  - reflexivity.
Defined.

Lemma update_preferences_merges_witness :
  exists w' p',
    update_preferences 0
      [("budget", VStr "luxury"); ("pace", VStr "slow")] example_world
      = (Ok tt, w') /\
    heap w' !! 0%nat = Some p' /\
    dict_get "budget" (preferences p') = Some (VStr "luxury") /\
    dict_get "duration" (preferences p') = Some (VInt 0) /\
    dict_get "pace" (preferences p') = Some (VStr "slow").
Proof.
  destruct (update_preferences_merges 0
              [("budget", VStr "luxury"); ("pace", VStr "slow")]
              example_world example_profile)
    as (w' & p' & Hcall & Hp' & Hget & _).
  - reflexivity.
  - simpl.
    repeat (apply NoDup_cons_2;
            [rewrite list_elem_of_In; simpl; intuition discriminate|]).
    apply NoDup_nil_2.
  - exists w', p'. split; [exact Hcall|]. split; [exact Hp'|].
    rewrite !Hget. repeat split; reflexivity.
Defined.

Lemma update_preferences_twice_witness :
  exists w1 w2 p2,
    update_preferences 0 [("budget", VStr "luxury"); ("duration", VInt 3)]
      example_world = (Ok tt, w1) /\
    update_preferences 0 [("budget", VStr "budget")] w1 = (Ok tt, w2) /\
    heap w2 !! 0%nat = Some p2 /\
    dict_get "budget" (preferences p2) = Some (VStr "budget") /\
    dict_get "duration" (preferences p2) = Some (VInt 3) /\
    dict_get "interests" (preferences p2) = Some (VList []).
Proof.
  destruct (update_preferences_twice 0
              [("budget", VStr "luxury"); ("duration", VInt 3)]
              [("budget", VStr "budget")] example_world example_profile)
    as (w1 & w2 & p2 & H1 & H2 & Hp2 & Hget & _).
  - reflexivity.
  - simpl.
    repeat (apply NoDup_cons_2;
            [rewrite list_elem_of_In; simpl; intuition discriminate|]).
    apply NoDup_nil_2.
  - simpl.
    repeat (apply NoDup_cons_2;
            [rewrite list_elem_of_In; simpl; intuition discriminate|]).
    apply NoDup_nil_2.
  - exists w1, w2, p2. split; [exact H1|]. split; [exact H2|].
    split; [exact Hp2|]. rewrite !Hget. repeat split; reflexivity.
Defined.

Lemma make_booking_reminder_records_witness :
  exists envelope w' p' now,
    make_booking_reminder example_isoformat "VI" "dinner" "2025-12-24" "19:30"
      "T1" initial_world = (Ok envelope, w') /\
    profile_of w' "T1" = Some p' /\
    memory_of w' "T1" "bookings" =
      [ VDict [ ("data",
                  VDict [ ("activity", VStr "dinner");
                          ("location", VStr "VI");
                          ("date", VStr "2025-12-24");
                          ("time", VStr "19:30");
                          ("status", VStr "reminder_set") ]);
                ("timestamp", VStr (example_isoformat now)) ] ] /\
    preferences p' = default_preferences.
Proof.
  destruct (make_booking_reminder_records example_isoformat "VI" "dinner"
              "2025-12-24" "19:30" "T1" initial_world world_wf_initial)
    as (envelope & w' & p' & now & Hcall & _ & Hp' & Hbook & _ & Hprefs).
  exists envelope, w', p', now. auto.
Defined.

Lemma check_safety_status_score_and_status_witness :
  exists envelope score,
    check_safety_status "Surulere" "night" = Ok envelope /\
    dict_get "safety_score" envelope = Some (VInt score) /\
    1 <= score <= 10 /\
    dict_get "status" envelope =
      Some (VStr (if 7 <=? score then "safe"
                  else if 5 <=? score then "caution" else "avoid")).
Proof.
  eexists.
  destruct (check_safety_status_score_and_status "Surulere" "night" _ eq_refl)
    as (score & Hscore & Hrange & Hstatus & _).
  exists score. split; [reflexivity|]. auto.
Defined.

Lemma check_safety_status_night_below_day_witness :
  exists by_day by_night day night,
    check_safety_status "VI" "day" = Ok by_day /\
    check_safety_status "VI" "night" = Ok by_night /\
    dict_get "safety_score" by_day = Some (VInt day) /\
    dict_get "safety_score" by_night = Some (VInt night) /\
    night < day.
Proof.
  eexists _, _.
  destruct (check_safety_status_night_below_day "VI" _ _ eq_refl eq_refl)
    as (day & night & Hday & Hnight & Hlt & _).
  exists day, night. split; [reflexivity|]. split; [reflexivity|]. auto.
Defined.


Lemma run_loop_quit_witness :
  lower (strip "  Quit ") = "quit" /\
  exists d,
    run_loop example_render example_render example_driver
      [ {| line := "  Quit "; generation := Raise IndexError |}; example_turn ]
      = Break d /\
    world d = world example_driver.
Proof.
  split; [reflexivity|]. eexists. split.
  - apply (run_loop_quit example_render example_render example_driver
             {| line := "  Quit "; generation := Raise IndexError |}
             [example_turn]).
    reflexivity.
  - reflexivity.
Defined.

Lemma clear_keeps_conversation_history_witness :
  exists d',
    loop_body example_render example_render example_after_turn
      {| line := "clear"; generation := Raise IndexError |} = Continue d' /\
    conversation_history d' =
      [ chat_message "user" "Is Surulere safe at night?";
        chat_message "agent" "Take a registered taxi." ] /\
    memory_of (world d') "T1" "chat_history" = [].
Proof.
  destruct (clear_keeps_conversation_history example_render example_render
              example_after_turn
              {| line := "clear"; generation := Raise IndexError |} eq_refl)
    as (d' & Hbody & Hhistory & Hchat & _).
  exists d'. split; [exact Hbody|]. split; [exact Hhistory|exact Hchat].
Defined.

Lemma turn_conversation_history_witness :
  exists d',
    loop_body example_render example_render example_driver
      {| line := "Any concerts tonight?";
         generation := Raise (GenerationError "503 UNAVAILABLE") |}
      = Continue d' /\
    conversation_history d' = [chat_message "user" "Any concerts tonight?"] /\
    world d' = world example_driver.
Proof.
  destruct (turn_conversation_history example_render example_render
              example_driver
              {| line := "Any concerts tonight?";
                 generation := Raise (GenerationError "503 UNAVAILABLE") |})
    as (d' & Hbody & Hhistory & Hworld).
  - exact example_driver_wf.
  - unfold utterance. repeat split; vm_compute; discriminate.
  - exists d'. split; [exact Hbody|]. split; [exact Hhistory|exact Hworld].
Defined.

Lemma reachable_single_session_witness :
  final_driver
    (run_tourism_advisor example_render example_timestamp example_render
       "T1" [example_turn]) = Some example_after_turn /\
  tourist_id example_after_turn = "T1" /\
  sessions (world example_after_turn) = {[ "T1" := session example_after_turn ]}.
Proof.
  assert (Hrun : final_driver
            (run_tourism_advisor example_render example_timestamp
               example_render "T1" [example_turn]) = Some example_after_turn)
    by (vm_compute; reflexivity).
  split; [exact Hrun|].
  destruct (reachable_single_session example_render example_timestamp
              example_render "T1" [example_turn] example_after_turn Hrun)
    as (Hid & _ & Hs & _).
  split; [exact Hid|exact Hs].
Defined.

Lemma reachable_orchestrator_context_witness :
  final_driver
    (run_tourism_advisor example_render example_timestamp example_render
       "T1" [example_turn]) = Some example_after_turn /\
  instructions_of (orchestrator example_after_turn) =
    orchestrator_instructions
      (context_template "T1"
         (example_render (VDict default_preferences))
         (example_render
            (VDict [ ("visited_places", VList []);
                     ("saved_restaurants", VList []);
                     ("bookings", VList []);
                     ("safety_alerts", VList []);
                     ("chat_history", VList []) ]))).
Proof.
  assert (Hrun : final_driver
            (run_tourism_advisor example_render example_timestamp
               example_render "T1" [example_turn]) = Some example_after_turn)
    by (vm_compute; reflexivity).
  split; [exact Hrun|].
  exact (reachable_orchestrator_context example_render example_timestamp
           example_render "T1" [example_turn] example_after_turn Hrun).
Defined.

Lemma reachable_profile_shape_witness :
  final_driver
    (run_tourism_advisor example_render example_timestamp example_render
       "T1" [example_turn]) = Some example_after_turn /\
  exists p chat,
    profile_of (world example_after_turn) "T1" = Some p /\
    preferences p = default_preferences /\
    memory_of (world example_after_turn) "T1" "chat_history" =
      flat_map exchange_records chat.
Proof.
  assert (Hrun : final_driver
            (run_tourism_advisor example_render example_timestamp
               example_render "T1" [example_turn]) = Some example_after_turn)
    by (vm_compute; reflexivity).
  split; [exact Hrun|].
  destruct (reachable_profile_shape example_render example_timestamp
              example_render "T1" [example_turn] example_after_turn Hrun)
    as (p & chat & Hp & Hprefs & Hchat & _).
  exists p, chat. auto.
Defined.

Lemma run_loop_memory_grows_witness :
  exists more,
    memory_of (world example_after_turn) "T1" "chat_history" =
      (memory_of (world example_driver) "T1" "chat_history" ++ more)%list.
Proof.
  destruct (run_loop_memory_grows example_render example_render
              [example_turn] example_driver example_after_turn)
    as [_ Hgrow].
  - exact example_driver_wf.
  - constructor; [|constructor]. unfold not_clear. vm_compute. discriminate.
  - vm_compute. reflexivity.
  - exact (Hgrow "chat_history").
Defined.


Lemma save_each_then_to_dict_witness :
  exists w' projection recent_memory,
    save_each example_isoformat 0 "visited_places" [VStr "h"; VStr "i"]
      example_world = (Ok tt, w') /\
    to_dict 0 w' = (Ok projection, w') /\
    dict_get "recent_memory" projection = Some (VDict recent_memory) /\
    dict_get "visited_places" recent_memory =
      Some (VList [ VStr "e"; VStr "f"; VStr "g";
                    memory_entry example_isoformat (VStr "h") 1;
                    memory_entry example_isoformat (VStr "i") 2 ]).
Proof.
  destruct (save_each_then_to_dict example_isoformat 0 "visited_places"
              [VStr "h"; VStr "i"] example_world example_profile
              [ VStr "a"; VStr "b"; VStr "c"; VStr "d"; VStr "e"; VStr "f";
                VStr "g" ] eq_refl eq_refl)
    as (w' & projection & recent_memory & Hrun & Hdict & Hrecent & Hcat & _).
  exists w', projection, recent_memory. auto.
Defined.

Lemma make_booking_reminder_isolated_witness :
  exists envelope w',
    make_booking_reminder example_isoformat "VI" "dinner" "2025-12-24" "19:30"
      "T1" initial_world = (Ok envelope, w') /\
    profile_of w' "T2" = profile_of initial_world "T2" /\
    sessions_apart w'.
Proof.
  apply (make_booking_reminder_isolated example_isoformat "VI" "dinner"
           "2025-12-24" "19:30" "T1" "T2" initial_world).
  - exact world_wf_initial.
  - exact sessions_apart_initial.
  - discriminate.
Defined.
